(** * Catalog synchronisation and PDF export: a shallow embedding

    The development follows the TypeScript sources:
    - [lib/woocommerce.ts]  ([syncProducts]),
    - [lib/pdf.ts]          ([generateProductCatalog]),
    - [App.tsx]             ([handleSync], [handleProductSelect],
                             [handlePriceUpdate], [generatePDF]).

    JavaScript strings are modelled as Rocq [string]s holding the UTF-8
    encoding of the text, JavaScript numbers as IEEE 754 binary64 values
    ([spec_float] with [prec = 53] and [emax = 1024]), thrown values as
    [Thrown], and objects sent to the database as finite maps from column
    names to values.  Calls that only log ([console.error], [console.log])
    or notify ([alert]) leave no trace in the model. *)

From Stdlib Require Import ZArith String Ascii List Lia.
From Stdlib Require Import Floats.SpecFloat.
From stdpp Require Import base option list gmap strings.

Local Open Scope string_scope.
Local Open Scope Z_scope.

(* ===================================================================== *)
(** * The JavaScript runtime pieces the sources rely on *)
(* ===================================================================== *)

Module Js.

(** ** Numbers *)

Definition prec : Z := 53.
Definition emax : Z := 1024.

Definition number := spec_float.

Definition NaN : number := S754_nan.
Definition zero : number := S754_zero false.

#[global] Instance spec_float_eq_dec : EqDecision spec_float.
Proof. solve_decision. Defined.

(** The nearest binary64 value (ties to even) of [m * 10^e], for a
    decimal literal with digits [m] and decimal exponent [e]. *)
Definition of_decimal (neg : bool) (m : N) (e : Z) : number :=
  match m with
  | N0 => S754_zero neg
  | Npos p =>
      match e with
      | Zneg k => SFdiv prec emax (S754_finite neg p 0)
                        (S754_finite false (Pos.pow 10 k) 0)
      | _ => SFdiv prec emax
                   (S754_finite neg (p * Z.to_pos (10 ^ e)) 0)
                   (S754_finite false 1 0)
      end
  end.

Definition of_Z (z : Z) : number :=
  of_decimal (z <? 0) (Z.abs_N z) 0.

Definition div (x y : number) : number := SFdiv prec emax x y.
Definition sub (x y : number) : number := SFsub prec emax x y.

(** ** Strings *)

Definition code (c : ascii) : Z := Z.of_N (N_of_ascii c).

Definition is_digit (c : ascii) : bool := (48 <=? code c) && (code c <=? 57).
Definition digit_val (c : ascii) : N := N_of_ascii c - 48.

(** [s.endsWith(c)] for a one-character ASCII [c]. *)
Fixpoint endsWith (s : string) (c : ascii) : bool :=
  match s with
  | EmptyString => false
  | String a EmptyString => Ascii.eqb a c
  | String _ rest => endsWith rest c
  end.

(** [s || d] on strings: the empty string is the only falsy string. *)
Definition str_or (s d : string) : string :=
  match s with EmptyString => d | _ => s end.

(** [o || d] where [o] may be [undefined]/[null] ([None]) or a string. *)
Definition opt_or (o : option string) (d : string) : string :=
  match o with
  | Some (String a r) => String a r
  | _ => d
  end.

(** Truthiness of a value that is a string, [null] or [undefined]. *)
Definition truthy (o : option string) : bool :=
  match o with
  | Some (String _ _) => true
  | _ => false
  end.

(** [o || null] / [o || undefined]. *)
Definition opt_or_null (o : option string) : option string :=
  if truthy o then o else None.

Definition digit (d : N) : ascii := ascii_of_N (48 + d).

(** Decimal digits of a natural number, most significant first. *)
Fixpoint digits_fuel (fuel : nat) (n : N) (acc : string) : string :=
  match fuel with
  | O => acc
  | S fuel' =>
      let acc' := String (digit (n mod 10)) acc in
      if (n <? 10)%N then acc' else digits_fuel fuel' (n / 10)%N acc'
  end.

Definition digits (n : N) : string :=
  digits_fuel (S (N.to_nat (N.log2 n))) n "".

Definition string_of_Z (z : Z) : string :=
  (if z <? 0 then "-" else "") ++ digits (Z.abs_N z).

Fixpoint repeat_char (c : ascii) (n : nat) : string :=
  match n with
  | O => ""
  | S n' => String c (repeat_char c n')
  end.

(** [addLeadingZeros]/[padStart(k, '0')]. *)
Definition pad_zeros (k : nat) (s : string) : string :=
  repeat_char "0" (k - String.length s) ++ s.

(** ** [parseFloat] (ECMA-262, 19.2.4) *)

(** Leading [WhiteSpace] and [LineTerminator] code points, in UTF-8. *)
Definition is_ws1 (c : ascii) : bool :=
  let n := code c in
  ((9 <=? n) && (n <=? 13)) || (n =? 32).

Definition is_ws2 (c1 c2 : ascii) : bool :=
  (code c1 =? 194) && (code c2 =? 160).

Definition is_ws3 (c1 c2 c3 : ascii) : bool :=
  let a := code c1 in let b := code c2 in let c := code c3 in
  ((a =? 225) && (b =? 154) && (c =? 128))
  || ((a =? 226) && (b =? 128)
      && (((128 <=? c) && (c <=? 138)) || (c =? 168) || (c =? 169) || (c =? 175)))
  || ((a =? 226) && (b =? 129) && (c =? 159))
  || ((a =? 227) && (b =? 128) && (c =? 128))
  || ((a =? 239) && (b =? 187) && (c =? 191)).

Fixpoint trim_start (s : string) : string :=
  match s with
  | EmptyString => s
  | String c1 r1 =>
      if is_ws1 c1 then trim_start r1 else
      match r1 with
      | String c2 r2 =>
          if is_ws2 c1 c2 then trim_start r2 else
          match r2 with
          | String c3 r3 => if is_ws3 c1 c2 c3 then trim_start r3 else s
          | EmptyString => s
          end
      | EmptyString => s
      end
  end.

(** The longest run of decimal digits at the head of [s]: its value, its
    length and the remaining text. *)
Fixpoint take_digits (s : string) (acc : N) (len : nat) : N * nat * string :=
  match s with
  | String c r =>
      if is_digit c then take_digits r (10 * acc + digit_val c)%N (S len)
      else (acc, len, s)
  | EmptyString => (acc, len, s)
  end.

(** An optional sign; [true] is minus. *)
Definition take_sign (s : string) : bool * string :=
  match s with
  | String "-" r => (true, r)
  | String "+" r => (false, r)
  | _ => (false, s)
  end.

(** The [ExponentPart] at the head of [s], when there is one with at least
    one digit; otherwise exponent 0. *)
Definition take_exponent (s : string) : Z :=
  match s with
  | String c r =>
      if Ascii.eqb c "e" || Ascii.eqb c "E" then
        let '(neg, r') := take_sign r in
        let '(v, len, _) := take_digits r' 0%N O in
        match len with
        | O => 0
        | S _ => if neg then - Z.of_N v else Z.of_N v
        end
      else 0
  | EmptyString => 0
  end.

Definition parseFloat (input : string) : number :=
  let '(neg, s) := take_sign (trim_start input) in
  if String.prefix "Infinity" s then S754_infinity neg else
  let '(int_v, int_len, s1) := take_digits s 0%N O in
  let '(frac_acc, frac_len, s2) :=
    match s1 with
    | String "." r => take_digits r int_v O
    | _ => (int_v, O, s1)
    end in
  match (int_len + frac_len)%nat with
  | O => NaN
  | S _ => of_decimal neg frac_acc (take_exponent s2 - Z.of_nat frac_len)
  end.

(** ** [Number.prototype.toFixed] (ECMA-262, 21.1.3.3) *)

Section ToFixed.
(** [Number::toString] for a finite value of magnitude at least
    [10^21]: the shortest round-trip exponential notation of the host. *)
Variable toString_large : number -> string.

(** Is [m * 2^e >= 10^21]? *)
Definition ge_1e21 (m : positive) (e : Z) : bool :=
  match e with
  | Zneg k => 10 ^ 21 * 2 ^ (Zpos k) <=? Zpos m
  | _ => 10 ^ 21 <=? Zpos m * 2 ^ e
  end.

(** The integer [n] for which [n / 10^f - m * 2^e] is closest to zero,
    the larger one when there are two. *)
Definition nearest_scaled (f : nat) (m : positive) (e : Z) : N :=
  let scaled := Zpos m * 10 ^ Z.of_nat f in
  match e with
  | Zneg k => Z.to_N ((2 * scaled + 2 ^ Zpos k) / 2 ^ (Zpos k + 1))
  | _ => Z.to_N (scaled * 2 ^ e)
  end.

(** Steps 9.b - 9.d: the digits of [n] with a point before the last [f]. *)
Definition fixed_digits (f : nat) (n : N) : string :=
  let m := digits n in
  match f with
  | O => m
  | S _ =>
      let m' := pad_zeros (S f) m in
      let k := String.length m' in
      String.substring 0 (k - f) m' ++ "." ++ String.substring (k - f) f m'
  end.

Definition toFixed (f : nat) (x : number) : string :=
  match x with
  | S754_nan => "NaN"
  | S754_infinity s => if s then "-Infinity" else "Infinity"
  | S754_zero _ => fixed_digits f 0
  | S754_finite s m e =>
      (if s then "-" else "") ++
      (if ge_1e21 m e then toString_large (S754_finite false m e)
       else fixed_digits f (nearest_scaled f m e))
  end.
End ToFixed.

(** ** [btoa] *)

(** The code points of a string whose characters all lie below U+0100, read
    off its UTF-8 encoding; [None] when some character lies outside that
    range (or the text is not UTF-8). *)
Fixpoint latin1 (s : string) : option (list Z) :=
  match s with
  | EmptyString => Some []
  | String c r =>
      if code c <? 128 then cons (code c) <$> latin1 r
      else
        match r with
        | String c2 r2 =>
            if ((code c =? 194) || (code c =? 195))
               && (128 <=? code c2) && (code c2 <? 192)
            then cons ((code c - 192) * 64 + (code c2 - 128)) <$> latin1 r2
            else None
        | EmptyString => None
        end
  end.

Definition base64_alphabet : string :=
  "ABCDEFGHIJKLMNOPQRSTUVWXYZabcdefghijklmnopqrstuvwxyz0123456789+/".

Definition b64 (n : Z) : ascii :=
  match String.get (Z.to_nat n) base64_alphabet with
  | Some c => c
  | None => "="%char
  end.

Fixpoint base64 (bs : list Z) : string :=
  match bs with
  | [] => ""
  | [a] =>
      String (b64 (Z.shiftr a 2))
        (String (b64 (Z.shiftl (Z.land a 3) 4)) "==")
  | [a; b] =>
      String (b64 (Z.shiftr a 2))
        (String (b64 (Z.lor (Z.shiftl (Z.land a 3) 4) (Z.shiftr b 4)))
           (String (b64 (Z.shiftl (Z.land b 15) 2)) "="))
  | a :: b :: c :: rest =>
      String (b64 (Z.shiftr a 2))
        (String (b64 (Z.lor (Z.shiftl (Z.land a 3) 4) (Z.shiftr b 4)))
           (String (b64 (Z.lor (Z.shiftl (Z.land b 15) 2) (Z.shiftr c 6)))
              (String (b64 (Z.land c 63)) (base64 rest))))
  end.

(** ** Thrown values *)

(** What a [catch] clause can receive: an instance of [Error] (with the
    name of its class and its message) or any other value. *)
Inductive Thrown :=
| ErrorInstance (name message : string)
| OtherValue (description : string).

#[global] Instance Thrown_eq_dec : EqDecision Thrown.
Proof. solve_decision. Defined.

(** [new Error(message)]. *)
Definition new_Error (message : string) : Thrown := ErrorInstance "Error" message.

Definition instanceof_Error (t : Thrown) : bool :=
  match t with ErrorInstance _ _ => true | OtherValue _ => false end.

Definition error_class (t : Thrown) : option string :=
  match t with ErrorInstance n _ => Some n | OtherValue _ => None end.

(** Results of code that may throw. *)
Definition result (A : Type) : Type := Thrown + A.
Definition ok {A} (a : A) : result A := inr a.
Definition throw {A} (t : Thrown) : result A := inl t.
Definition bind {A B} (r : result A) (k : A -> result B) : result B :=
  match r with inl t => inl t | inr a => k a end.

(** [btoa(s)]: throws an [InvalidCharacterError] when [s] holds a
    character above U+00FF. *)
Definition btoa (s : string) : result string :=
  match latin1 s with
  | Some bs => ok (base64 bs)
  | None =>
      throw (ErrorInstance "InvalidCharacterError"
               "The string to be encoded contains characters outside of the Latin1 range.")
  end.

(** ** Searching in strings *)

(** [s.includes(sub)]: [sub] occurs somewhere in [s]. *)
Fixpoint includes (s sub : string) : bool :=
  match s with
  | EmptyString => String.prefix sub s
  | String _ rest => String.prefix sub s || includes rest sub
  end.

(** [s.split(sep)[0]] for a non-empty [sep]: the text before the first
    occurrence of [sep], all of [s] when there is none. *)
Fixpoint split_head (sep s : string) : string :=
  match s with
  | EmptyString => ""
  | String c rest =>
      if String.prefix sep s then "" else String c (split_head sep rest)
  end.

End Js.


(* ===================================================================== *)
(** * The database client, as the sources see it *)
(* ===================================================================== *)

Module Supabase.

(** The error object of a failed query. *)
Record PostgrestError := { message : string; code : string }.

(** The [{ data, error }] pair every query resolves to. *)
Record Response (A : Type) := { data : option A; error : option PostgrestError }.
Arguments data {A} _.
Arguments error {A} _.

(** Column values of a row sent to, or held by, the database. *)
Inductive Value :=
| VNull
| VBool (b : bool)
| VInt (z : Z)
| VNum (x : Js.number)
| VStr (s : string).

#[global] Instance Value_eq_dec : EqDecision Value.
Proof. solve_decision. Defined.

(** A row, or the object literal it is written from: column name to value. *)
Abbreviation Row := (gmap string Value).

Definition of_nullable (o : option string) : Value :=
  match o with Some s => VStr s | None => VNull end.

(** A number as it is serialised in a request body: JSON has no [NaN] and
    no infinities, [JSON.stringify] writes [null] for them; and it has no
    negative zero, [JSON.stringify(-0)] is ["0"]. *)
Definition of_number (x : Js.number) : Value :=
  match x with
  | S754_nan | S754_infinity _ => VNull
  | S754_zero _ => VNum (S754_zero false)
  | S754_finite _ _ _ => VNum x
  end.

End Supabase.

(* ===================================================================== *)
(** * lib/woocommerce.ts *)
(* ===================================================================== *)

(** The element types of [images] and [categories]. *)
Record Image := { src : string }.
Record CategoryRef := { cat_name : string }.

(** [interface WooCommerceProduct]: a record of the remote listing. *)
Record WooCommerceProduct := {
  wc_id : Z;
  wc_name : string;
  wc_price : string;
  wc_description : string;
  wc_images : list Image;
  wc_categories : list CategoryRef;
  wc_status : string
}.

(** The objects [syncProducts] resolves to. *)
Record SyncedProduct := {
  woo_id : Z;
  name : string;
  price : Js.number;
  description : string;
  image_url : option string;
  category : option string;
  is_active : bool
}.

Module WooCommerce.
Import Js.

(** The row of [company_settings] restricted to the selected columns. *)
Record Settings := {
  woocommerce_url : string;
  woocommerce_key : string;
  woocommerce_secret : string
}.

Record Request := { url : string; headers : list (string * string) }.

(** What [response.json()] resolves to, under the declared element type. *)
Inductive Payload :=
| NotAnArray
| ArrayOf (records : list WooCommerceProduct).

(** A [fetch] response: [text()] and [json()] may themselves reject. *)
Record FetchResponse := {
  status : Z;
  text : result string;
  json : result Payload
}.

(** [response.ok]: the status is in the range 200-299. *)
Definition ok_status (r : FetchResponse) : bool :=
  (200 <=? status r) && (status r <=? 299).

(** Everything outside the function that one run consults. *)
Record World := {
  settings_query : Supabase.Response Settings;
  fetch : Request -> result FetchResponse
}.

Definition products_path : string := "wp-json/wc/v3/products?per_page=100".

(** Lines 34-36: the store URL made to end with a slash, then the path. *)
Definition baseUrl (url : string) : string :=
  if endsWith url "/" then url else url ++ "/".

Definition apiUrl (url : string) : string := baseUrl url ++ products_path.

Definition request_for (s : Settings) (token : string) : Request :=
  {| url := apiUrl (woocommerce_url s);
     headers := [("Authorization", "Basic " ++ token);
                 ("Content-Type", "application/json")] |}.

(** Lines 56-64: the normalisation of one remote record. *)
Definition normalize (product : WooCommerceProduct) : SyncedProduct :=
  {| woo_id := wc_id product;
     name := wc_name product;
     price := parseFloat (str_or (wc_price product) "0");
     description := wc_description product;
     image_url :=
       opt_or_null (src <$> head (wc_images product));
     category :=
       opt_or_null (cat_name <$> head (wc_categories product));
     is_active := bool_decide (wc_status product = "publish") |}.

Definition settings_load_error : string :=
  "Erro ao carregar configurações do WooCommerce. Por favor, configure primeiro.".
Definition settings_missing_error : string :=
  "Configurações do WooCommerce não encontradas. Por favor, configure primeiro.".
Definition invalid_response_error : string :=
  "Resposta inválida da API do WooCommerce".
Definition unknown_error : string :=
  "Erro desconhecido ao sincronizar produtos".

Definition api_error (status : Z) (errorText : string) : string :=
  "Erro na API do WooCommerce: " ++ string_of_Z status ++ " - " ++ errorText.

(** The body of the [try] block, lines 15-64. *)
Definition syncProducts_try (w : World) : result (list SyncedProduct) :=
  let r := settings_query w in
  match Supabase.error r with
  | Some _ => throw (new_Error settings_load_error)
  | None =>
      match Supabase.data r with
      | None => throw (new_Error settings_missing_error)
      | Some settings =>
          bind (btoa (woocommerce_key settings ++ ":" ++ woocommerce_secret settings))
            (fun token =>
          bind (fetch w (request_for settings token))
            (fun response =>
          if negb (ok_status response) then
            bind (text response) (fun errorText =>
            throw (new_Error (api_error (status response) errorText)))
          else
            bind (json response) (fun products =>
            match products with
            | NotAnArray => throw (new_Error invalid_response_error)
            | ArrayOf records => ok (map normalize records)
            end)))
      end
  end.

(** The [catch] clause, lines 65-68: an [Error] is rethrown as it is,
    anything else is replaced by a new [Error]. *)
Definition rethrow (error : Thrown) : Thrown :=
  if instanceof_Error error then error else new_Error unknown_error.

Definition syncProducts (w : World) : result (list SyncedProduct) :=
  match syncProducts_try w with
  | inl error => throw (rethrow error)
  | inr products => ok products
  end.

End WooCommerce.

(* ===================================================================== *)
(** * lib/pdf.ts *)
(* ===================================================================== *)

Module Pdf.
Import Js.

Record Product := {
  name : string;
  price : number;
  category : option string
}.

Record CompanyInfo := {
  company_name : string;
  logo_url : option string;
  contact_phone : option string;
  contact_email : option string
}.

(** The calendar fields of [new Date()] in local time. *)
Record LocalDate := { year : Z; month : Z; day : Z }.

(** date-fns [format(date, 'dd/MM/yyyy')]. *)
Definition format_dd_MM_yyyy (d : LocalDate) : string :=
  let y := if 0 <? year d then year d else 1 - year d in
  pad_zeros 2 (string_of_Z (day d)) ++ "/" ++
  pad_zeros 2 (string_of_Z (month d)) ++ "/" ++
  pad_zeros 4 (string_of_Z y).

Inductive Align := AlignLeft | AlignCenter | AlignRight.

Record TableOptions := {
  head : list (list string);
  body : list (list string);
  startY : number;
  theme : string;
  styles_fontSize : number;
  styles_cellPadding : number;
  headStyles_fillColor : list Z;
  headStyles_textColor : Z
}.

(** The calls made on the [jsPDF] document, in order. *)
Inductive DrawOp :=
| SetFontSize (size : Z)
| Text (text : string) (x y : number) (align : Align)
| AutoTable (options : TableOptions).

(** [doc.output('blob')]: the content of the document as it stands, that is
    the calls made on it so far.  The bytes jsPDF writes for this content
    also hold a file identifier and a creation time that jsPDF picks at each
    [new jsPDF()]; they are not part of this type, so equality of two values
    of it says that two documents have the same content, not that their
    bytes are the same. *)
Definition Blob := list DrawOp.

(** What the host supplies: the page of a fresh [new jsPDF()] and the
    exponential notation [toFixed] falls back to for huge numbers. *)
Record Host := {
  pageSize_width : number;
  pageSize_height : number;
  toString_large : number -> string
}.

(** The objects a call can reach: its two arguments and the document. *)
Record Heap := {
  products_arg : list Product;
  companyInfo_arg : CompanyInfo;
  doc : list DrawOp
}.

Definition M (A : Type) : Type := Heap -> A * Heap.
#[local] Instance M_ret : MRet M := fun A (a : A) h => (a, h).
#[local] Instance M_bind : MBind M :=
  fun A B (k : A -> M B) (m : M A) h => let '(a, h') := m h in k a h'.

Definition read_products : M (list Product) := fun h => (products_arg h, h).
Definition read_companyInfo : M CompanyInfo := fun h => (companyInfo_arg h, h).
Definition call (op : DrawOp) : M unit :=
  fun h => (tt, {| products_arg := products_arg h;
                   companyInfo_arg := companyInfo_arg h;
                   doc := doc h ++ [op] |}).
Definition output : M Blob := fun h => (doc h, h).
Definition when (b : bool) (m : M unit) : M unit := if b then m else mret tt.

Section Renderer.
Variable host : Host.

Definition pageWidth : number := pageSize_width host.

(** Lines 39-43: one table row per product. *)
Definition table_row (product : Product) : list string :=
  [ name product;
    opt_or (category product) "-";
    "R$ " ++ toFixed (toString_large host) 2 (price product) ].

Definition table_options (tableData : list (list string)) : TableOptions :=
  {| head := [["Produto"; "Categoria"; "Preço"]];
     body := tableData;
     startY := of_Z 40;
     theme := "grid";
     styles_fontSize := of_Z 10;
     styles_cellPadding := of_Z 5;
     headStyles_fillColor := [41; 128; 185];
     headStyles_textColor := 255 |}.

Definition footerY : number := sub (pageSize_height host) (of_Z 20).

Definition generateProductCatalog (today : LocalDate) : M Blob :=
  companyInfo ← read_companyInfo;
  call (SetFontSize 20);;
  call (Text (company_name companyInfo) (div pageWidth (of_Z 2)) (of_Z 20)
          AlignCenter);;
  call (SetFontSize 12);;
  call (Text ("Catálogo de Produtos - " ++ format_dd_MM_yyyy today)
          (div pageWidth (of_Z 2)) (of_Z 30) AlignCenter);;
  products ← read_products;
  let tableData := map table_row products in
  call (AutoTable (table_options tableData));;
  call (SetFontSize 10);;
  when (truthy (contact_phone companyInfo))
    (call (Text ("Tel: " ++ default "" (contact_phone companyInfo))
             (of_Z 20) footerY AlignLeft));;
  when (truthy (contact_email companyInfo))
    (call (Text ("Email: " ++ default "" (contact_email companyInfo))
             (sub pageWidth (of_Z 20)) footerY AlignRight));;
  output.

(** A call from outside: fresh document, the caller's two arguments. *)
Definition enter (products : list Product) (companyInfo : CompanyInfo) : Heap :=
  {| products_arg := products; companyInfo_arg := companyInfo; doc := [] |}.

Definition render (today : LocalDate) (products : list Product)
    (companyInfo : CompanyInfo) : Blob :=
  fst (generateProductCatalog today (enter products companyInfo)).

End Renderer.

End Pdf.

(* ===================================================================== *)
(** * The products table *)
(* ===================================================================== *)

(** [interface ProductDetails] of App.tsx: a row as the page holds it. *)
Record ProductDetails := {
  pd_id : string;
  pd_woo_id : Z;
  pd_description : option string;
  pd_image_url : option string;
  pd_category : option string;
  pd_is_active : bool;
  pd_price : Js.number;
  pd_catalog_price : option Js.number
}.

Module CatalogStore.
Import Js Supabase.

Abbreviation Table := (list Row).

(** What the sources cannot see of the database: which statements it
    rejects (constraints, row-level security, connectivity), the column
    defaults of a newly inserted row, and how a [select] comes back. *)
Record Backend := {
  rejects : Table -> list Row -> option Thrown;
  defaults : Row -> Row;
  select_all : Table -> Response (list ProductDetails)
}.

(** Modelled from the spec: the store's [upsertByKey(key, fields)] "with
    merge-not-replace semantics" (section 4.3), which the client of
    [lib/supabase] and the database behind it provide; neither is part of
    the sources.  A payload row whose key column matches an existing row
    overwrites the columns it carries and leaves every other column of
    that row as it was; a payload row with a new key is appended, completed
    with the column defaults. *)
Fixpoint upsert_row (key : string) (dflt : Row -> Row) (p : Row) (t : Table) : Table :=
  match t with
  | [] => [p ∪ dflt p]
  | r :: t' =>
      if decide (r !! key = p !! key) then (p ∪ r) :: t'
      else r :: upsert_row key dflt p t'
  end.

Definition upsert_rows (key : string) (dflt : Row -> Row) (ps : list Row) (t : Table) : Table :=
  foldl (fun acc p => upsert_row key dflt p acc) t ps.

(** Modelled from the spec: one [upsert] statement, all of its rows or none. *)
Definition upsert (b : Backend) (ps : list Row) (onConflict : string) (t : Table)
  : result Table :=
  match rejects b t ps with
  | Some upsertError => throw upsertError
  | None => ok (upsert_rows onConflict (defaults b) ps t)
  end.

(** Modelled from the spec: the store's [updateField(id, field, value)]:
    [update({ field: value }).eq('id', id)]. *)
Definition update_eq_id (field : string) (v : Value) (id : string) (t : Table) : Table :=
  map (fun r => if decide (r !! "id" = Some (VStr id)) then <[field := v]> r else r) t.

End CatalogStore.

(* ===================================================================== *)
(** * App.tsx: the product list page *)
(* ===================================================================== *)

Module App.
Import Js Supabase.

(** The [useState] cells of [ProductList]. *)
Record State := {
  products : list ProductDetails;
  selectedProducts : gset string;
  searchTerm : string;
  loading : bool;
  syncing : bool;
  error : option string;
  hasSettings : option bool
}.

Definition setProducts (v : list ProductDetails) (st : State) : State :=
  {| products := v; selectedProducts := selectedProducts st;
     searchTerm := searchTerm st; loading := loading st; syncing := syncing st;
     error := error st; hasSettings := hasSettings st |}.
Definition setSelectedProducts (v : gset string) (st : State) : State :=
  {| products := products st; selectedProducts := v;
     searchTerm := searchTerm st; loading := loading st; syncing := syncing st;
     error := error st; hasSettings := hasSettings st |}.
Definition setLoading (v : bool) (st : State) : State :=
  {| products := products st; selectedProducts := selectedProducts st;
     searchTerm := searchTerm st; loading := v; syncing := syncing st;
     error := error st; hasSettings := hasSettings st |}.
Definition setSyncing (v : bool) (st : State) : State :=
  {| products := products st; selectedProducts := selectedProducts st;
     searchTerm := searchTerm st; loading := loading st; syncing := v;
     error := error st; hasSettings := hasSettings st |}.
Definition setError (v : option string) (st : State) : State :=
  {| products := products st; selectedProducts := selectedProducts st;
     searchTerm := searchTerm st; loading := loading st; syncing := syncing st;
     error := v; hasSettings := hasSettings st |}.

Definition setHasSettings (v : option bool) (st : State) : State :=
  {| products := products st; selectedProducts := selectedProducts st;
     searchTerm := searchTerm st; loading := loading st; syncing := syncing st;
     error := error st; hasSettings := v |}.

(** The value an [async] handler resolves to. *)
Inductive Returned :=
| Undefined
| Number (n : Z).

(** ** [checkSettings], lines 79-85: [count] is the row count the query
    reports, [null] when it fails. *)
Definition checkSettings (count : option nat) (st : State) : State :=
  setHasSettings (Some (bool_decide (count = Some 1%nat))) st.

(** ** [fetchProducts], lines 87-106 *)

Definition products_load_error : string :=
  "Não foi possível carregar os produtos. Por favor, verifique sua conexão com o Supabase.".

Definition fetchProducts (r : Response (list ProductDetails)) (st : State) : State :=
  let st := setError None (setLoading true st) in
  match Supabase.error r with
  | Some _ => setLoading false (setError (Some products_load_error) st)
  | None => setLoading false (setProducts (default [] (data r)) st)
  end.

(** ** [handleSync], lines 108-139 *)

Definition configure_first_error : string :=
  "Configure primeiro as informações do WooCommerce nas configurações.".
Definition sync_failed_error : string :=
  "Erro ao sincronizar produtos do WooCommerce.".

(** The own properties of an object [syncProducts] built (lines 57-63), as
    the request body carries them. *)
Definition spread (product : SyncedProduct) : Row :=
  <["woo_id" := VInt (woo_id product)]>
  (<["name" := VStr (name product)]>
  (<["price" := of_number (price product)]>
  (<["description" := VStr (description product)]>
  (<["image_url" := of_nullable (image_url product)]>
  (<["category" := of_nullable (category product)]>
  (<["is_active" := VBool (is_active product)]> ∅)))))).

(** Lines 123-126; [clock i] is [new Date().toISOString()] as read for the
    [i]-th element. *)
Definition upsert_payload (clock : nat -> string) (wooProducts : list SyncedProduct)
  : list Row :=
  imap (fun i product => <["updated_at" := VStr (clock i)]> (spread product))
       wooProducts.

(** The columns such a row carries. *)
Definition payload_columns : list string :=
  ["woo_id"; "name"; "price"; "description"; "image_url"; "category";
   "is_active"; "updated_at"].

Record SyncEnv := {
  world : WooCommerce.World;
  clock : nat -> string;
  backend : CatalogStore.Backend
}.

(** The message shown for a caught value (line 135). *)
Definition sync_message (e : Thrown) : string :=
  match e with
  | ErrorInstance _ message => message
  | OtherValue _ => sync_failed_error
  end.

Definition handleSync (env : SyncEnv) (st : State) (t : CatalogStore.Table)
  : State * CatalogStore.Table * Returned :=
  match hasSettings st with
  | Some true =>
      let st := setError None (setSyncing true st) in
      match WooCommerce.syncProducts (world env) with
      | inl e => (setSyncing false (setError (Some (sync_message e)) st), t, Undefined)
      | inr wooProducts =>
          match CatalogStore.upsert (backend env)
                  (upsert_payload (clock env) wooProducts) "woo_id" t with
          | inl upsertError =>
              (setSyncing false (setError (Some (sync_message upsertError)) st),
               t, Undefined)
          | inr t' =>
              (setSyncing false
                 (fetchProducts (CatalogStore.select_all (backend env) t') st),
               t', Undefined)
          end
      end
  | _ => (setError (Some configure_first_error) st, t, Undefined)
  end.

(** ** [handleProductSelect], lines 141-151 *)

Definition handleProductSelect (productId : string) (st : State) : State :=
  setSelectedProducts
    (if decide (productId ∈ selectedProducts st)
     then selectedProducts st ∖ {[productId]}
     else selectedProducts st ∪ {[productId]})
    st.

(** ** [handlePriceUpdate], lines 153-169 *)

Definition set_catalog_price (v : Js.number) (p : ProductDetails) : ProductDetails :=
  {| pd_id := pd_id p; pd_woo_id := pd_woo_id p;
     pd_description := pd_description p; pd_image_url := pd_image_url p;
     pd_category := pd_category p; pd_is_active := pd_is_active p;
     pd_price := pd_price p; pd_catalog_price := Some v |}.

(** [updateError] is the outcome of the update; a failure raises an alert
    and leaves the page as it was. *)
Definition handlePriceUpdate (updateError : option PostgrestError)
    (productId : string) (newCatalogPrice : Js.number)
    (st : State) (t : CatalogStore.Table) : State * CatalogStore.Table :=
  match updateError with
  | Some _ => (st, t)
  | None =>
      (setProducts
         (map (fun p => if decide (pd_id p = productId)
                        then set_catalog_price newCatalogPrice p else p)
              (products st)) st,
       CatalogStore.update_eq_id "catalog_price" (of_number newCatalogPrice)
         productId t)
  end.

(** The "Preço Catálogo" cell of the page (line 383). *)
Definition displayed_catalog_price (product : ProductDetails) : Js.number :=
  match pd_catalog_price product with
  | Some v => v
  | None => pd_price product
  end.

(** ** [generatePDF], lines 171-212 *)

Definition select_one_error : string :=
  "Selecione pelo menos um produto para gerar o PDF.".
Definition company_load_error : string :=
  "Não foi possível carregar as configurações da empresa para gerar o PDF.".

Inductive Effect :=
| Rendered (products : list Pdf.Product) (companyInfo : Pdf.CompanyInfo)
| Downloaded (filename : string) (blob : Pdf.Blob).

Record PdfEnv := {
  host : Pdf.Host;
  today : Pdf.LocalDate;
  company_settings_query : Response Pdf.CompanyInfo
}.

(** Lines 187-195: the selected rows, as the renderer receives them. *)
Definition selectedProductList (st : State) : list ProductDetails :=
  filter (fun product => pd_id product ∈ selectedProducts st) (products st).

Definition renderer_argument (product : ProductDetails) : Pdf.Product :=
  {| Pdf.name := opt_or (pd_description product) "Sem nome";
     Pdf.price := pd_price product;
     Pdf.category := opt_or_null (pd_category product) |}.

(** Lines 171-207.  The two guards come before the [try] block.  Of the
    block itself this is the run in which neither the renderer nor the
    download throws; the [catch] clause of lines 208-211, which shows
    "Erro ao gerar PDF. Por favor, tente novamente." when one of them does,
    is not covered.  The second component lists the call to the renderer and
    the download it is followed by. *)
Definition generatePDF (env : PdfEnv) (st : State) : State * list Effect :=
  if decide (size (selectedProducts st) = 0%nat) then
    (setError (Some select_one_error) st, [])
  else
    let companySettings := company_settings_query env in
    match Supabase.error companySettings, data companySettings with
    | None, Some companyInfo =>
        let args := map renderer_argument (selectedProductList st) in
        let pdfBlob := Pdf.render (host env) (today env) args companyInfo in
        (st, [Rendered args companyInfo;
              Downloaded "catalogo-produtos.pdf" pdfBlob])
    | _, _ => (setError (Some company_load_error) st, [])
    end.

(** ** [filteredProducts], lines 219-222 *)

Section Search.
(** [String.prototype.toLowerCase], the case mapping of the host. *)
Variable toLowerCase : string -> string.

(** [field?.toLowerCase().includes(searchTerm.toLowerCase())]: [undefined]
    (falsy) when the field is [null]. *)
Definition field_matches (term : string) (field : option string) : bool :=
  match field with
  | Some text => includes (toLowerCase text) (toLowerCase term)
  | None => false
  end.

Definition filteredProducts (st : State) : list ProductDetails :=
  filter (fun product =>
            field_matches (searchTerm st) (pd_description product)
            || field_matches (searchTerm st) (pd_category product))
         (products st).
End Search.

Definition setSearchTerm (v : string) (st : State) : State :=
  {| products := products st; selectedProducts := selectedProducts st;
     searchTerm := v; loading := loading st; syncing := syncing st;
     error := error st; hasSettings := hasSettings st |}.

End App.

(* ===================================================================== *)
(** * App.tsx: the cells of the product table *)
(* ===================================================================== *)

Module Display.
Import Js.

(** Does [s] hold a [>]? *)
Fixpoint contains_gt (s : string) : bool :=
  match s with
  | EmptyString => false
  | String c rest => Ascii.eqb c ">" || contains_gt rest
  end.

(** [s.replace(/<[^>]*>/g, '')], scanning from the left: a [<] that has a
    [>] somewhere after it opens a match that runs to the first such [>] and
    is dropped; any other character is kept.  [inside] tells whether the
    scan is within a match. *)
Fixpoint strip_from (inside : bool) (s : string) : string :=
  match s with
  | EmptyString => ""
  | String c rest =>
      if inside then
        if Ascii.eqb c ">" then strip_from false rest else strip_from true rest
      else if Ascii.eqb c "<" && contains_gt rest then strip_from true rest
      else String c (strip_from false rest)
  end.

Definition strip_markup (s : string) : string := strip_from false s.

(** [/<[^>]*>/.test(s)]: some [<] of [s] has a [>] after it. *)
Fixpoint has_tag (s : string) : bool :=
  match s with
  | EmptyString => false
  | String c rest => (Ascii.eqb c "<" && contains_gt rest) || has_tag rest
  end.

(** Line 369, the "Título Produto" cell; [None] when nothing is rendered. *)
Definition title_cell (product : ProductDetails) : option string :=
  (fun description => strip_markup (split_head " - " description))
    <$> pd_description product.

(** Line 374, the "Descrição Produto" cell. *)
Definition description_cell (product : ProductDetails) : option string :=
  strip_markup <$> pd_description product.

(** Line 378, the "Categoria" cell. *)
Definition category_cell (product : ProductDetails) : string :=
  opt_or (pd_category product) "-".

End Display.

(* ===================================================================== *)
(** * The earlier product list page (prices edited in place) *)
(* ===================================================================== *)

Module Legacy.
Import Js Supabase.

(** [interface Product] of the earlier page. *)
Record Product := {
  id : string;
  woo_id : Z;
  name : string;
  price : Js.number;
  description : option string;
  image_url : option string;
  category : option string;
  is_active : bool
}.

Definition set_price (v : Js.number) (p : Product) : Product :=
  {| id := id p; woo_id := woo_id p; name := name p; price := v;
     description := description p; image_url := image_url p;
     category := category p; is_active := is_active p |}.

(** [handlePriceUpdate] of the earlier page, lines 106-122: the edit goes to
    the [price] column itself. *)
Definition handlePriceUpdate (updateError : option PostgrestError)
    (productId : string) (newPrice : Js.number)
    (products : list Product) (t : CatalogStore.Table)
  : list Product * CatalogStore.Table :=
  match updateError with
  | Some _ => (products, t)
  | None =>
      (map (fun p => if decide (id p = productId) then set_price newPrice p else p)
           products,
       CatalogStore.update_eq_id "price" (of_number newPrice) productId t)
  end.

End Legacy.

(* ===================================================================== *)
(** * Vocabulary of the statements, and sample inputs *)
(* ===================================================================== *)

(** [r'] carries the same value as [r] in every column outside [cols]. *)
Definition agree_outside (cols : list string) (r r' : Supabase.Row) : Prop :=
  forall c, c ∉ cols -> r' !! c = r !! c.

(** A payload row only carries columns of [cols]. *)
Definition within (cols : list string) (p : Supabase.Row) : Prop :=
  forall c, c ∉ cols -> p !! c = None.

(** The run reaches the remote API and gets [response] back: the settings
    row is there, the credentials encode, and [fetch] resolves. *)
Definition responds (w : WooCommerce.World) (response : WooCommerce.FetchResponse) : Prop :=
  exists settings token,
    WooCommerce.settings_query w = {| Supabase.data := Some settings; Supabase.error := None |}
    /\ Js.btoa (WooCommerce.woocommerce_key settings ++ ":" ++
                 WooCommerce.woocommerce_secret settings) = Js.ok token
    /\ WooCommerce.fetch w (WooCommerce.request_for settings token) = Js.ok response.

(** The claim's words, "url with exactly one trailing slash": every slash at
    the end of [url] removed, then one appended. *)
Fixpoint strip_trailing_slashes (url : string) : string :=
  match url with
  | EmptyString => ""
  | String c rest =>
      match strip_trailing_slashes rest with
      | EmptyString => if Ascii.eqb c "/" then "" else String c ""
      | kept => String c kept
      end
  end.

Definition with_one_trailing_slash (url : string) : string :=
  strip_trailing_slashes url ++ "/".

(** [url] ends with two slashes. *)
Fixpoint ends_with_double_slash (url : string) : bool :=
  match url with
  | EmptyString => false
  | String a (String b EmptyString) => Ascii.eqb a "/" && Ascii.eqb b "/"
  | String _ rest => ends_with_double_slash rest
  end.

(** The drawing calls of [generateProductCatalog] before the footer. *)
Definition document_top (host : Pdf.Host) (today : Pdf.LocalDate)
    (products : list Pdf.Product) (companyInfo : Pdf.CompanyInfo) : list Pdf.DrawOp :=
  [ Pdf.SetFontSize 20;
    Pdf.Text (Pdf.company_name companyInfo)
      (Js.div (Pdf.pageSize_width host) (Js.of_Z 2)) (Js.of_Z 20) Pdf.AlignCenter;
    Pdf.SetFontSize 12;
    Pdf.Text ("Catálogo de Produtos - " ++ Pdf.format_dd_MM_yyyy today)
      (Js.div (Pdf.pageSize_width host) (Js.of_Z 2)) (Js.of_Z 30) Pdf.AlignCenter;
    Pdf.AutoTable (Pdf.table_options (map (Pdf.table_row host) products));
    Pdf.SetFontSize 10 ].

(** [n] written with exactly [k] decimal digits (the last [k] of them). *)
Fixpoint fixed_width (k : nat) (n : N) : string :=
  match k with
  | O => ""
  | S k' => fixed_width k' (n / 10) ++ String (Js.digit (n mod 10)) ""
  end.

(** A calendar date whose fields have the usual ranges. *)
Definition calendar_date (d : Pdf.LocalDate) : Prop :=
  1 <= Pdf.day d <= 31 /\ 1 <= Pdf.month d <= 12 /\ 1 <= Pdf.year d <= 9999.

(** The integer [n] is the one nearest to [100 * m * 2^e], the larger one
    when two are equally near. *)
Definition nearest_hundredths (m : positive) (e : Z) (n : N) : Prop :=
  match e with
  | Zneg k => 2 ^ Zpos k * (2 * Z.of_N n - 1) <= 2 * (Zpos m * 100)
              < 2 ^ Zpos k * (2 * Z.of_N n + 1)
  | _ => Z.of_N n = Zpos m * 100 * 2 ^ e
  end.

(** A contact line of the footer, when the field holds a non-empty text. *)
Definition contact_line (field : option string) (line : string -> Pdf.DrawOp)
  : list Pdf.DrawOp :=
  match field with
  | Some (String a rest) => [line (String a rest)]
  | _ => []
  end.

Definition phone_line (host : Pdf.Host) (phone : string) : Pdf.DrawOp :=
  Pdf.Text ("Tel: " ++ phone) (Js.of_Z 20) (Pdf.footerY host) Pdf.AlignLeft.

Definition email_line (host : Pdf.Host) (email : string) : Pdf.DrawOp :=
  Pdf.Text ("Email: " ++ email)
    (Js.sub (Pdf.pageSize_width host) (Js.of_Z 20)) (Pdf.footerY host) Pdf.AlignRight.

(** Every selected id is the id of a loaded product. *)
Definition selection_loaded (st : App.State) : Prop :=
  forall id, id ∈ App.selectedProducts st ->
             exists product, product ∈ App.products st /\ pd_id product = id.

(** The [catalog_price] of a page row as a column value. *)
Definition catalog_column (o : option Js.number) : Supabase.Value :=
  match o with
  | Some v => Supabase.VNum v
  | None => Supabase.VNull
  end.

(** The page row [product] shows the stored row [r]: same id, same catalog
    price. *)
Definition shows (r : Supabase.Row) (product : ProductDetails) : Prop :=
  r !! "id" = Some (Supabase.VStr (pd_id product))
  /\ r !! "catalog_price" = Some (catalog_column (pd_catalog_price product)).

(** A number JSON can carry. *)
Definition finite (x : Js.number) : Prop :=
  match x with
  | S754_nan | S754_infinity _ => False
  | _ => True
  end.

(** The zero with the sign bit set, [-0]. *)
Definition negative_zero : Js.number := S754_zero true.

(** A number that is read back from JSON as the same number: finite, and
    not [-0]. *)
Definition carried_exactly (x : Js.number) : Prop :=
  match x with
  | S754_nan | S754_infinity _ | S754_zero true => False
  | _ => True
  end.

(** A price written with two decimals: the integer part, a point, two
    digits; [n] counts hundredths. *)
Definition price_text (n : N) : string :=
  Js.digits (n / 100) ++ "." ++ fixed_width 2 (n mod 100).

(** The parsed text is below [10^21] and [toFixed(2)] of it gives the text
    back. *)
Definition prints_as_written (n : N) : bool :=
  match Js.parseFloat (price_text n) with
  | S754_finite _ m e => negb (Js.ge_1e21 m e)
  | S754_zero _ => true
  | _ => false
  end
  && String.eqb (Js.toFixed (fun _ => "") 2 (Js.parseFloat (price_text n)))
                (price_text n).

Fixpoint all_print_as_written (count : nat) (from : N) : bool :=
  match count with
  | O => true
  | S count' =>
      if prints_as_written from then all_print_as_written count' (from + 1)%N
      else false
  end.

(** ASCII lower case, as one host mapping agreeing with [toLowerCase] on
    unaccented text. *)
Definition ascii_lower (c : ascii) : ascii :=
  if (65 <=? Js.code c) && (Js.code c <=? 90)
  then ascii_of_N (N_of_ascii c + 32) else c.

Fixpoint lower_ascii (s : string) : string :=
  match s with
  | EmptyString => ""
  | String c rest => String (ascii_lower c) (lower_ascii rest)
  end.

Module Sample.
Import Js Supabase.

(** A4 in millimetres, as a fresh [new jsPDF()] reports it. *)
Definition a4 : Pdf.Host :=
  {| Pdf.pageSize_width := of_decimal false 2100015555555555 (-13);
     Pdf.pageSize_height := of_decimal false 2970000833333333 (-13);
     Pdf.toString_large := fun _ => "1e+21" |}.

Definition acme : Pdf.CompanyInfo :=
  {| Pdf.company_name := "Acme"; Pdf.logo_url := None;
     Pdf.contact_phone := None; Pdf.contact_email := None |}.

Definition acme_with_contacts : Pdf.CompanyInfo :=
  {| Pdf.company_name := "Acme"; Pdf.logo_url := None;
     Pdf.contact_phone := Some "+55 11 5555-0100";
     Pdf.contact_email := Some "vendas@acme.example" |}.

Definition widget : Pdf.Product :=
  {| Pdf.name := "Widget"; Pdf.price := of_decimal false 199 (-1);
     Pdf.category := Some "Tools" |}.

(** A loaded row: store price 10.00, catalog price 12.00. *)
Definition loaded : ProductDetails :=
  {| pd_id := "p1"; pd_woo_id := 7;
     pd_description := Some "Widget"; pd_image_url := None;
     pd_category := Some "Tools"; pd_is_active := true;
     pd_price := of_decimal false 10 0;
     pd_catalog_price := Some (of_decimal false 12 0) |}.

(** The page when it is first shown. *)
Definition initial : App.State :=
  {| App.products := []; App.selectedProducts := ∅;
     App.searchTerm := ""; App.loading := true; App.syncing := false;
     App.error := None; App.hasSettings := None |}.

Definition loads (rows : list ProductDetails) : Response (list ProductDetails) :=
  {| data := Some rows; error := None |}.

Definition day1 : Pdf.LocalDate := {| Pdf.year := 2025; Pdf.month := 1; Pdf.day := 22 |}.
Definition day2 : Pdf.LocalDate := {| Pdf.year := 2025; Pdf.month := 1; Pdf.day := 23 |}.

Definition settings : WooCommerce.Settings :=
  {| WooCommerce.woocommerce_url := "https://loja.example";
     WooCommerce.woocommerce_key := "ck_1";
     WooCommerce.woocommerce_secret := "cs_2" |}.

Definition settings_found : Response WooCommerce.Settings :=
  {| data := Some settings; error := None |}.

Definition settings_absent : Response WooCommerce.Settings :=
  {| data := None;
     error := Some {| message := "JSON object requested, multiple (or no) rows returned";
                      code := "PGRST116" |} |}.

Definition remote (price : string) : WooCommerceProduct :=
  {| wc_id := 7; wc_name := "Widget"; wc_price := price;
     wc_description := "Widget - <b>blue</b>";
     wc_images := [ {| src := "https://loja.example/w.png" |} ];
     wc_categories := [ {| cat_name := "Tools" |} ];
     wc_status := "publish" |}.

(** A server that answers every request with [status] and [body]. *)
Definition answering (status : Z) (body : string) (payload : result WooCommerce.Payload)
  : WooCommerce.World :=
  {| WooCommerce.settings_query := settings_found;
     WooCommerce.fetch := fun _ =>
       ok {| WooCommerce.status := status;
             WooCommerce.text := ok body;
             WooCommerce.json := payload |} |}.

Definition listing (records : list WooCommerceProduct) : WooCommerce.World :=
  answering 200 "[...]" (ok (WooCommerce.ArrayOf records)).

Definition permissive : CatalogStore.Backend :=
  {| CatalogStore.rejects := fun _ _ => None;
     CatalogStore.defaults := fun p =>
       {[ "id" := VStr "generated"; "catalog_price" := VNull ]};
     CatalogStore.select_all := fun _ => {| data := Some []; error := None |} |}.

Definition sync_env (w : WooCommerce.World) : App.SyncEnv :=
  {| App.world := w;
     App.clock := fun _ => "2025-01-22T13:43:37.000Z";
     App.backend := permissive |}.

Definition page (selected : gset string) (rows : list ProductDetails) : App.State :=
  {| App.products := rows; App.selectedProducts := selected;
     App.searchTerm := ""; App.loading := false; App.syncing := false;
     App.error := None; App.hasSettings := Some true |}.

(** A row as a first synchronisation left it: no catalog price yet. *)
Definition fresh_row : Row :=
  {[ "id" := VStr "p1"; "woo_id" := VInt 7; "name" := VStr "Widget";
     "price" := VNum (of_decimal false 10 0);
     "catalog_price" := VNull;
     "last_synced_at" := VStr "2025-01-01T00:00:00.000Z";
     "updated_at" := VStr "2025-01-01T00:00:00.000Z" ]}.

(** A stored row: store price 10.00, catalog price 12.00 set by the user. *)
Definition stored_row : Row :=
  {[ "id" := VStr "p1"; "woo_id" := VInt 7; "name" := VStr "Widget";
     "price" := VNum (of_decimal false 10 0);
     "catalog_price" := VNum (of_decimal false 12 0);
     "last_synced_at" := VStr "2025-01-01T00:00:00.000Z";
     "updated_at" := VStr "2025-01-01T00:00:00.000Z" ]}.

(** A loaded row with neither description nor category. *)
Definition bare : ProductDetails :=
  {| pd_id := "p2"; pd_woo_id := 8;
     pd_description := None; pd_image_url := None;
     pd_category := None; pd_is_active := true;
     pd_price := of_decimal false 5 0;
     pd_catalog_price := None |}.

(** The stored row behind [loaded]. *)
Definition loaded_row : Row :=
  {[ "id" := VStr "p1"; "woo_id" := VInt 7;
     "price" := VNum (of_decimal false 10 0);
     "catalog_price" := VNum (of_decimal false 12 0) ]}.

(** Credentials with a character outside Latin-1. *)
Definition euro_settings : WooCommerce.Settings :=
  {| WooCommerce.woocommerce_url := "https://loja.example";
     WooCommerce.woocommerce_key := "ck_1";
     WooCommerce.woocommerce_secret := "cs_€" |}.

(** A server that cannot be reached. *)
Definition unreachable : WooCommerce.World :=
  {| WooCommerce.settings_query := settings_found;
     WooCommerce.fetch := fun _ => throw (ErrorInstance "TypeError" "Failed to fetch") |}.

(** A store that refuses every statement. *)
Definition refusing : CatalogStore.Backend :=
  {| CatalogStore.rejects := fun _ _ =>
       Some (OtherValue "new row violates row-level security policy");
     CatalogStore.defaults := fun _ => ∅;
     CatalogStore.select_all := fun _ => {| data := Some []; error := None |} |}.

(** A store that writes but cannot be read back. *)
Definition unreadable : CatalogStore.Backend :=
  {| CatalogStore.rejects := fun _ _ => None;
     CatalogStore.defaults := fun _ => {[ "id" := VStr "generated" ]};
     CatalogStore.select_all := fun _ =>
       {| data := None;
          error := Some {| message := "connection lost"; code := "08006" |} |} |}.

Definition legacy_product : Legacy.Product :=
  {| Legacy.id := "p1"; Legacy.woo_id := 7; Legacy.name := "Widget";
     Legacy.price := of_decimal false 10 0;
     Legacy.description := None; Legacy.image_url := None;
     Legacy.category := None; Legacy.is_active := true |}.

Definition pdf_env : App.PdfEnv :=
  {| App.host := a4; App.today := day1;
     App.company_settings_query := {| data := Some acme; error := None |} |}.

End Sample.

(* ===================================================================== *)
(** * Properties *)
(* ===================================================================== *)

(** ** The upsert and the columns it leaves alone *)

Section UpsertFrame.
Import Js Supabase CatalogStore.

Lemma agree_outside_refl cols r : agree_outside cols r r.
Proof. by intros c _. Qed.

Lemma agree_outside_trans cols r1 r2 r3 :
  agree_outside cols r1 r2 -> agree_outside cols r2 r3 -> agree_outside cols r1 r3.
Proof. intros H12 H23 c Hc. rewrite (H23 c Hc). by apply H12. Qed.

Lemma merge_agree_outside cols p r : within cols p -> agree_outside cols r (p ∪ r).
Proof. intros Hp c Hc. rewrite lookup_union_r; [done | by apply Hp]. Qed.

Lemma upsert_row_frame cols key dflt p t i r :
  within cols p ->
  t !! i = Some r ->
  exists r', upsert_row key dflt p t !! i = Some r' /\ agree_outside cols r r'.
Proof.
  intros Hp. revert i. induction t as [|r0 t IH]; intros i Hi; [done|].
  simpl. destruct (decide (r0 !! key = p !! key)) as [Heq|Hne].
  - destruct i as [|i]; simpl in *.
    + inversion Hi; subst. eexists; split; [done|]. by apply merge_agree_outside.
    + exists r. split; [done | apply agree_outside_refl].
  - destruct i as [|i]; simpl in *.
    + exists r. split; [done | apply agree_outside_refl].
    + by apply IH.
Qed.

Lemma upsert_rows_frame cols key dflt ps :
  Forall (within cols) ps ->
  forall t i r, t !! i = Some r ->
  exists r', upsert_rows key dflt ps t !! i = Some r' /\ agree_outside cols r r'.
Proof.
  unfold upsert_rows. induction 1 as [|p ps Hp _ IH]; intros t i r Hi; simpl.
  - exists r. split; [done | apply agree_outside_refl].
  - destruct (upsert_row_frame cols key dflt p t i r Hp Hi) as (r1 & Hr1 & H1).
    destruct (IH _ _ _ Hr1) as (r2 & Hr2 & H2).
    exists r2. split; [done | by eapply agree_outside_trans].
Qed.

Lemma spread_within product clock_value :
  within App.payload_columns (<["updated_at" := VStr clock_value]> (App.spread product)).
Proof.
  intros c Hc. unfold App.payload_columns in Hc. unfold App.spread.
  repeat (rewrite lookup_insert_ne;
          [|intros <-; apply Hc;
            repeat first [apply list_elem_of_here | apply list_elem_of_further]]).
  apply lookup_empty.
Qed.

Lemma upsert_payload_within clock ws :
  Forall (within App.payload_columns) (App.upsert_payload clock ws).
Proof.
  unfold App.upsert_payload. revert clock.
  induction ws as [|w ws IH]; intros clock; simpl; constructor.
  - apply spread_within.
  - apply (IH (clock ∘ S)).
Qed.

(** *** What an upsert writes *)

Lemma upsert_row_written key dflt p t v :
  p !! key = Some v ->
  exists r, r ∈ upsert_row key dflt p t /\ p ⊆ r /\ r !! key = Some v.
Proof.
  intros Hkey. induction t as [|r0 t IH]; simpl.
  - exists (p ∪ dflt p). split; [apply list_elem_of_here|].
    split; [apply map_union_subseteq_l | by apply lookup_union_Some_l].
  - destruct (decide (r0 !! key = p !! key)) as [Heq|Hne].
    + exists (p ∪ r0). split; [apply list_elem_of_here|].
      split; [apply map_union_subseteq_l | by apply lookup_union_Some_l].
    + destruct IH as (r & Hin & Hsub & Hr).
      exists r. split; [by apply list_elem_of_further | done].
Qed.

Lemma upsert_row_keeps key dflt p t r :
  r ∈ t -> r !! key <> p !! key -> r ∈ upsert_row key dflt p t.
Proof.
  intros Hin Hne. induction t as [|r0 t IH]; [by apply elem_of_nil in Hin|].
  simpl. apply elem_of_cons in Hin as [->|Hin].
  - rewrite decide_False by done. apply list_elem_of_here.
  - destruct (decide (r0 !! key = p !! key)).
    + by apply list_elem_of_further.
    + apply list_elem_of_further. by apply IH.
Qed.

Lemma upsert_rows_keeps key dflt ps t r :
  r ∈ t ->
  Forall (fun p => r !! key <> p !! key) ps ->
  r ∈ upsert_rows key dflt ps t.
Proof.
  unfold upsert_rows. intros Hin Hall. revert t Hin.
  induction Hall as [|p ps Hp _ IH]; intros t Hin; simpl; [done|].
  apply IH. by apply upsert_row_keeps.
Qed.

(** A payload row that no later row of the same statement shares its key
    with is in the table afterwards, with every column it carries. *)
Lemma upsert_rows_written key dflt ps t j p :
  ps !! j = Some p ->
  is_Some (p !! key) ->
  (forall j' p', (j < j')%nat -> ps !! j' = Some p' -> p' !! key <> p !! key) ->
  exists r, r ∈ upsert_rows key dflt ps t /\ p ⊆ r.
Proof.
  intros Hj [v Hv] Hlater.
  rewrite <- (take_drop_middle ps j p Hj).
  unfold upsert_rows. rewrite foldl_app. simpl.
  destruct (upsert_row_written key dflt p
              (foldl (fun acc q => upsert_row key dflt q acc) t (take j ps)) v Hv)
    as (r & Hin & Hsub & Hr).
  exists r. split; [|done].
  apply (upsert_rows_keeps key dflt (drop (S j) ps) _ r Hin).
  apply Forall_lookup_2. intros i q Hq. rewrite lookup_drop in Hq.
  rewrite Hr, <- Hv. intros Heq.
  by apply (Hlater (S j + i)%nat q ltac:(lia) Hq).
Qed.

Lemma upsert_payload_key clock ws j p :
  App.upsert_payload clock ws !! j = Some p ->
  exists w, ws !! j = Some w /\ p !! "woo_id" = Some (VInt (woo_id w)).
Proof.
  unfold App.upsert_payload. rewrite list_lookup_imap.
  destruct (ws !! j) as [w|]; [|done]. simpl. intros [= <-].
  exists w. split; [done|]. reflexivity.
Qed.

Lemma catalog_price_not_written : "catalog_price" ∉ App.payload_columns.
Proof.
  unfold App.payload_columns. rewrite list_elem_of_In. simpl.
  intros H. repeat (destruct H as [H|H]; [discriminate H|]). exact H.
Qed.

End UpsertFrame.

(** C1: a synchronisation run leaves the [catalog_price] column of every row
    that existed before the run as it was, whatever the remote listing holds
    and whether or not the run succeeds: the rows [handleSync] upserts carry
    only the columns [woo_id], [name], [price], [description], [image_url],
    [category], [is_active] and the timestamp [updated_at], and an existing
    row keeps every other column. *)
Theorem sync_keeps_catalog_price (env : App.SyncEnv) (st : App.State)
    (t : CatalogStore.Table) (i : nat) (r : Supabase.Row) :
  t !! i = Some r ->
  exists r', (App.handleSync env st t).1.2 !! i = Some r'
             /\ r' !! "catalog_price" = r !! "catalog_price"
             /\ agree_outside App.payload_columns r r'.
Proof.
  intros Hi.
  assert (Hsame : exists r', t !! i = Some r'
                             /\ r' !! "catalog_price" = r !! "catalog_price"
                             /\ agree_outside App.payload_columns r r').
  { exists r. split; [done|]. split; [done | apply agree_outside_refl]. }
  unfold App.handleSync.
  destruct (App.hasSettings st) as [[|]|]; simpl; try exact Hsame.
  destruct (WooCommerce.syncProducts (App.world env)) as [e|ws]; simpl;
    [exact Hsame|].
  unfold CatalogStore.upsert.
  destruct (CatalogStore.rejects _ _ _) as [e|]; simpl; [exact Hsame|].
  destruct (upsert_rows_frame App.payload_columns "woo_id"
              (CatalogStore.defaults (App.backend env))
              (App.upsert_payload (App.clock env) ws)
              (upsert_payload_within _ _) t i r Hi) as (r' & Hr' & Hagree).
  exists r'. split; [done|]. split; [|done].
  apply Hagree, catalog_price_not_written.
Qed.

(** The run of the sample: the store price moves from 10 to 15.5 upstream,
    the catalog price 12 set by the user stays. *)
Lemma sync_keeps_catalog_price_witness :
  [Sample.stored_row] !! 0%nat = Some Sample.stored_row
  /\ exists r',
       (App.handleSync (Sample.sync_env (Sample.listing [Sample.remote "15.50"]))
          (Sample.page ∅ []) [Sample.stored_row]).1.2 !! 0%nat = Some r'
       /\ r' !! "catalog_price" = Sample.stored_row !! "catalog_price"
       /\ agree_outside App.payload_columns Sample.stored_row r'.
Proof.
  split; [reflexivity|].
  apply (sync_keeps_catalog_price
           (Sample.sync_env (Sample.listing [Sample.remote "15.50"]))
           (Sample.page ∅ []) [Sample.stored_row] 0 Sample.stored_row).
  reflexivity.
Defined.

Example sync_changes_price_only :
  match (App.handleSync (Sample.sync_env (Sample.listing [Sample.remote "15.50"]))
           (Sample.page ∅ []) [Sample.stored_row]).1.2 with
  | [r'] => r' !! "price" = Some (Supabase.VNum (Js.of_decimal false 155 (-1)))
            /\ r' !! "catalog_price" = Some (Supabase.VNum (Js.of_decimal false 12 0))
            /\ r' !! "updated_at" = Some (Supabase.VStr "2025-01-22T13:43:37.000Z")
            /\ r' !! "last_synced_at" = Some (Supabase.VStr "2025-01-01T00:00:00.000Z")
  | _ => False
  end.
Proof. vm_compute. repeat split. Qed.

(** The user sets the catalog price to 12 on the page, then synchronises
    while the store price has moved to 15.5: the row keeps 12. *)
Example price_edit_survives_sync :
  let edited := App.handlePriceUpdate None "p1" (Js.of_decimal false 12 0)
                  (Sample.page ∅ [Sample.loaded]) [Sample.fresh_row] in
  match (App.handleSync (Sample.sync_env (Sample.listing [Sample.remote "15.50"]))
           edited.1 edited.2).1.2 with
  | [r'] => r' !! "price" = Some (Supabase.VNum (Js.of_decimal false 155 (-1)))
            /\ r' !! "catalog_price" = Some (Supabase.VNum (Js.of_decimal false 12 0))
  | _ => False
  end.
Proof. vm_compute. split; reflexivity. Qed.

(** ** The remote catalog client *)

Section RemoteClient.
Import Js WooCommerce.

Lemma syncProducts_not_ok w response errorText :
  responds w response ->
  ok_status response = false ->
  text response = ok errorText ->
  syncProducts w = throw (new_Error (api_error (status response) errorText)).
Proof.
  intros (settings & token & Hq & Htok & Hfetch) Hok Htext.
  unfold syncProducts, syncProducts_try.
  rewrite Hq; simpl. rewrite Htok; simpl. rewrite Hfetch; simpl.
  rewrite Hok; simpl. rewrite Htext; simpl. reflexivity.
Qed.

Lemma syncProducts_json w response payload :
  responds w response ->
  ok_status response = true ->
  json response = ok payload ->
  syncProducts w =
    match payload with
    | NotAnArray => throw (new_Error invalid_response_error)
    | ArrayOf records => ok (map normalize records)
    end.
Proof.
  intros (settings & token & Hq & Htok & Hfetch) Hok Hjson.
  unfold syncProducts, syncProducts_try.
  rewrite Hq; simpl. rewrite Htok; simpl. rewrite Hfetch; simpl.
  rewrite Hok; simpl. rewrite Hjson; simpl. by destruct payload.
Qed.

Lemma sample_responds status body payload :
  responds (Sample.answering status body payload)
    {| WooCommerce.status := status; text := ok body; json := payload |}.
Proof. exists Sample.settings, "Y2tfMTpjc18y". repeat split. Qed.

End RemoteClient.

(** C2 (as stated, refuted): the price string "abc" is normalised to [NaN],
    not to 0; the run raises no error. *)
Lemma price_abc_is_not_zero :
  exists p,
    WooCommerce.syncProducts (Sample.listing [Sample.remote "abc"]) = Js.ok [p]
    /\ price p = Js.NaN
    /\ price p <> Js.zero.
Proof.
  exists (WooCommerce.normalize (Sample.remote "abc")).
  split; [reflexivity|]. split; [reflexivity|]. discriminate.
Qed.

(** C2 (amended): whenever the remote API answers with a sequence of records,
    normalisation yields one product per record and raises no error,
    whatever the price strings are; a record whose price string is empty is
    given the price 0, and any other price string is handed to [parseFloat]
    as it is ("19.90" is given the price 19.9). *)
Theorem empty_price_defaults_to_zero
    (w : WooCommerce.World) (response : WooCommerce.FetchResponse)
    (records : list WooCommerceProduct) :
  responds w response ->
  WooCommerce.ok_status response = true ->
  WooCommerce.json response = Js.ok (WooCommerce.ArrayOf records) ->
  WooCommerce.syncProducts w = Js.ok (map WooCommerce.normalize records)
  /\ (forall product, product ∈ records -> wc_price product = "" ->
       price (WooCommerce.normalize product) = Js.zero)
  /\ (forall product, product ∈ records -> wc_price product <> "" ->
       price (WooCommerce.normalize product) = Js.parseFloat (wc_price product))
  /\ price (WooCommerce.normalize (Sample.remote "19.90"))
     = Js.of_decimal false 199 (-1).
Proof.
  intros Hresp Hok Hjson. split.
  - by rewrite (syncProducts_json w response _ Hresp Hok Hjson).
  - split; [|split; [|reflexivity]].
    + intros product _ Hprice. unfold WooCommerce.normalize; simpl.
      rewrite Hprice. reflexivity.
    + intros product _ Hprice. unfold WooCommerce.normalize; simpl.
      by destruct (wc_price product).
Qed.

Lemma empty_price_defaults_to_zero_witness :
  WooCommerce.syncProducts (Sample.listing [Sample.remote ""])
  = Js.ok [WooCommerce.normalize (Sample.remote "")]
  /\ price (WooCommerce.normalize (Sample.remote "")) = Js.zero.
Proof.
  destruct (empty_price_defaults_to_zero (Sample.listing [Sample.remote ""])
              {| WooCommerce.status := 200; WooCommerce.text := Js.ok "[...]";
                 WooCommerce.json := Js.ok (WooCommerce.ArrayOf [Sample.remote ""]) |}
              [Sample.remote ""]
              (sample_responds _ _ _) eq_refl eq_refl) as (Hrun & Hzero & _ & _).
  split; [exact Hrun|].
  apply Hzero; [apply list_elem_of_here | reflexivity].
Defined.

(** C3 (as stated, refuted): an HTTP 401 and an HTTP 500 make the client fail
    the same way, with a plain [Error] whose message is built from the status
    and the body; the failure on 401 is of no class of its own. *)
Lemma auth_failure_is_a_plain_error :
  WooCommerce.syncProducts (Sample.answering 401 "unauthorized" (Js.ok WooCommerce.NotAnArray))
  = Js.throw (Js.new_Error "Erro na API do WooCommerce: 401 - unauthorized")
  /\ WooCommerce.syncProducts (Sample.answering 500 "oops" (Js.ok WooCommerce.NotAnArray))
     = Js.throw (Js.new_Error "Erro na API do WooCommerce: 500 - oops")
  /\ ~ (Js.error_class (Js.new_Error "Erro na API do WooCommerce: 401 - unauthorized")
        <> Js.error_class (Js.new_Error "Erro na API do WooCommerce: 500 - oops")).
Proof.
  split; [reflexivity|]. split; [reflexivity|]. intros H. by apply H.
Qed.

(** C3 (amended): for every non-success HTTP status, 401 included, the client
    fails with a plain [Error] whose message carries the status code and the
    response body; when the status is a success and the payload is not a
    sequence of records it fails with a plain [Error] saying the response is
    invalid.  Both are instances of the one class [Error]. *)
Theorem remote_failures_are_plain_errors
    (w : WooCommerce.World) (response : WooCommerce.FetchResponse) :
  responds w response ->
  (forall errorText,
     WooCommerce.ok_status response = false ->
     WooCommerce.text response = Js.ok errorText ->
     WooCommerce.syncProducts w
     = Js.throw (Js.ErrorInstance "Error"
                   ("Erro na API do WooCommerce: " ++
                    Js.string_of_Z (WooCommerce.status response) ++ " - " ++ errorText)))
  /\ (WooCommerce.ok_status response = true ->
      WooCommerce.json response = Js.ok WooCommerce.NotAnArray ->
      WooCommerce.syncProducts w
      = Js.throw (Js.ErrorInstance "Error" "Resposta inválida da API do WooCommerce")).
Proof.
  intros Hresp. split.
  - intros errorText Hok Htext.
    by rewrite (syncProducts_not_ok w response errorText Hresp Hok Htext).
  - intros Hok Hjson.
    by rewrite (syncProducts_json w response _ Hresp Hok Hjson).
Qed.

Lemma remote_failures_are_plain_errors_witness :
  WooCommerce.syncProducts
    (Sample.answering 401 "unauthorized" (Js.ok WooCommerce.NotAnArray))
  = Js.throw (Js.ErrorInstance "Error" "Erro na API do WooCommerce: 401 - unauthorized")
  /\ WooCommerce.syncProducts
       (Sample.answering 200 "{}" (Js.ok WooCommerce.NotAnArray))
     = Js.throw (Js.ErrorInstance "Error" "Resposta inválida da API do WooCommerce").
Proof.
  split.
  - apply (proj1 (remote_failures_are_plain_errors
                    (Sample.answering 401 "unauthorized" (Js.ok WooCommerce.NotAnArray))
                    {| WooCommerce.status := 401; WooCommerce.text := Js.ok "unauthorized";
                       WooCommerce.json := Js.ok WooCommerce.NotAnArray |}
                    (sample_responds _ _ _)) "unauthorized"); reflexivity.
  - apply (proj2 (remote_failures_are_plain_errors
                    (Sample.answering 200 "{}" (Js.ok WooCommerce.NotAnArray))
                    {| WooCommerce.status := 200; WooCommerce.text := Js.ok "{}";
                       WooCommerce.json := Js.ok WooCommerce.NotAnArray |}
                    (sample_responds _ _ _))); reflexivity.
Defined.

(** ** The request URL *)

Section RequestUrl.
Import Js WooCommerce.

Lemma endsWith_cons c b rest ch :
  endsWith (String c (String b rest)) ch = endsWith (String b rest) ch.
Proof. reflexivity. Qed.

Lemma endsWith_app_char s ch : endsWith (s ++ String ch "") ch = true.
Proof.
  induction s as [|c s IH]; simpl.
  - apply Ascii.eqb_refl.
  - destruct s as [|b s']; simpl in *; [apply Ascii.eqb_refl | exact IH].
Qed.

Lemma strip_no_slash url :
  endsWith url "/" = false -> strip_trailing_slashes url = url.
Proof.
  induction url as [|c rest IH]; [done|].
  destruct rest as [|b rest'].
  - simpl. intros ->. reflexivity.
  - rewrite endsWith_cons. intros H.
    change (strip_trailing_slashes (String c (String b rest')))
      with (match strip_trailing_slashes (String b rest') with
            | EmptyString => if Ascii.eqb c "/" then "" else String c ""
            | kept => String c kept
            end).
    rewrite (IH H). reflexivity.
Qed.

Lemma strip_single_slash url :
  endsWith url "/" = true ->
  ends_with_double_slash url = false ->
  strip_trailing_slashes url ++ "/" = url.
Proof.
  induction url as [|c rest IH]; [done|].
  destruct rest as [|b rest'].
  - simpl. intros H _. rewrite H. apply Ascii.eqb_eq in H. by subst.
  - rewrite endsWith_cons. intros Hend Hdouble.
    change (strip_trailing_slashes (String c (String b rest')))
      with (match strip_trailing_slashes (String b rest') with
            | EmptyString => if Ascii.eqb c "/" then "" else String c ""
            | kept => String c kept
            end).
    destruct rest' as [|a rest''].
    + simpl in Hend, Hdouble. rewrite Hend in Hdouble.
      rewrite andb_true_r in Hdouble. simpl. rewrite Hend, Hdouble.
      apply Ascii.eqb_eq in Hend. by subst.
    + assert (Hrest : ends_with_double_slash (String b (String a rest'')) = false)
        by exact Hdouble.
      specialize (IH Hend Hrest).
      destruct (strip_trailing_slashes (String b (String a rest''))) as [|x y].
      * discriminate IH.
      * change (String c (String x y +:+ "/") = String c (String b (String a rest''))).
        by rewrite IH.
Qed.

End RequestUrl.

(** C10 (as stated, refuted): a store URL that ends with two slashes is
    requested with both of them, not with exactly one. *)
Lemma double_slash_is_kept :
  WooCommerce.apiUrl "https://loja.example//"
  = "https://loja.example//wp-json/wc/v3/products?per_page=100"
  /\ with_one_trailing_slash "https://loja.example//" ++ WooCommerce.products_path
     = "https://loja.example/wp-json/wc/v3/products?per_page=100"
  /\ WooCommerce.apiUrl "https://loja.example//"
     <> with_one_trailing_slash "https://loja.example//" ++ WooCommerce.products_path.
Proof. split; [reflexivity|]. split; [reflexivity|]. discriminate. Qed.

(** C10 (amended): the request URL is the same whether the configured store
    URL is written without a trailing slash or with one: for every [url] that
    does not end with a slash, [url] and [url/] both give [url/] followed by
    the products path; and for every [url] that does not end with two
    slashes, the endpoint is [url] with exactly one trailing slash followed by
    the products path. *)
Theorem api_url_trailing_slash (url : string) :
  (Js.endsWith url "/" = false ->
   WooCommerce.apiUrl (url ++ "/") = WooCommerce.apiUrl url
   /\ WooCommerce.apiUrl url = (url ++ "/") ++ WooCommerce.products_path)
  /\ (ends_with_double_slash url = false ->
      WooCommerce.apiUrl url = with_one_trailing_slash url ++ WooCommerce.products_path).
Proof.
  split.
  - intros Hno. unfold WooCommerce.apiUrl, WooCommerce.baseUrl.
    rewrite Hno, (endsWith_app_char url "/"). done.
  - intros Hdouble. unfold WooCommerce.apiUrl, WooCommerce.baseUrl, with_one_trailing_slash.
    destruct (Js.endsWith url "/") eqn:Hend.
    + by rewrite (strip_single_slash url Hend Hdouble).
    + by rewrite (strip_no_slash url Hend).
Qed.

Lemma api_url_trailing_slash_witness :
  (WooCommerce.apiUrl ("https://loja.example" ++ "/")
   = WooCommerce.apiUrl "https://loja.example"
   /\ WooCommerce.apiUrl "https://loja.example"
      = ("https://loja.example" ++ "/") ++ WooCommerce.products_path)
  /\ WooCommerce.apiUrl "https://loja.example/"
     = with_one_trailing_slash "https://loja.example/" ++ WooCommerce.products_path.
Proof.
  split.
  - apply (proj1 (api_url_trailing_slash "https://loja.example")). reflexivity.
  - apply (proj2 (api_url_trailing_slash "https://loja.example/")). reflexivity.
Defined.

(** ** The document renderer *)

Section Renderer.
Import Js Pdf.

(** The document is the fixed top part followed by the contact lines that
    are present. *)
Lemma render_shape host today products companyInfo :
  render host today products companyInfo
  = (document_top host today products companyInfo
     ++ contact_line (contact_phone companyInfo) (phone_line host)
     ++ contact_line (contact_email companyInfo) (email_line host))%list.
Proof.
  unfold render, generateProductCatalog, enter, document_top, contact_line,
    phone_line, email_line, when, call, output, read_companyInfo, read_products,
    mbind, M_bind, mret, M_ret, truthy, pageWidth.
  simpl.
  destruct (contact_phone companyInfo) as [[|a r]|];
    destruct (contact_email companyInfo) as [[|b q]|]; reflexivity.
Qed.

(** The arguments are only read: after the call they are what they were. *)
Lemma generateProductCatalog_reads_only host today h :
  products_arg (generateProductCatalog host today h).2 = products_arg h
  /\ companyInfo_arg (generateProductCatalog host today h).2 = companyInfo_arg h.
Proof.
  unfold generateProductCatalog, when, call, output, read_companyInfo, read_products,
    mbind, M_bind, mret, M_ret.
  simpl.
  destruct (truthy (contact_phone (companyInfo_arg h)));
    destruct (truthy (contact_email (companyInfo_arg h))); split; reflexivity.
Qed.

Lemma text_in_document_top host today products companyInfo text x y align :
  Text text x y align ∈ document_top host today products companyInfo
  <-> align = AlignCenter
      /\ x = div (pageSize_width host) (of_Z 2)
      /\ ((text = company_name companyInfo /\ y = of_Z 20)
          \/ (text = "Catálogo de Produtos - " ++ format_dd_MM_yyyy today
              /\ y = of_Z 30)).
Proof.
  unfold document_top. rewrite !elem_of_cons, elem_of_nil. split.
  - intros [H|[H|[H|[H|[H|[H|[]]]]]]]; try discriminate H;
      injection H as -> -> -> ->; split; [done| |done|]; split; try done;
      [by left | by right].
  - intros (-> & -> & [[-> ->]|[-> ->]]).
    + right; by left.
    + right; right; right; by left.
Qed.

Lemma elem_of_contact_line field line op :
  op ∈ contact_line field line <-> exists v, field = Some v /\ v <> "" /\ op = line v.
Proof.
  unfold contact_line. destruct field as [[|a r]|].
  - split; [by intros ?%elem_of_nil | by intros (v & [= <-] & Hne & _)].
  - rewrite list_elem_of_singleton. split.
    + intros ->. by exists (String a r).
    + by intros (v & [= <-] & _ & ->).
  - split; [by intros ?%elem_of_nil | by intros (v & [=] & _)].
Qed.

End Renderer.

(** ** [toFixed]: the digits printed *)

Section Fixed.
Import Js.
#[local] Arguments String.append : simpl nomatch.

Lemma substring_all s : String.substring 0 (String.length s) s = s.
Proof. induction s as [|c s IH]; simpl; [done | by rewrite IH]. Qed.

Lemma substring_split s k :
  (k <= String.length s)%nat ->
  String.substring 0 k s ++ String.substring k (String.length s - k) s = s.
Proof.
  revert k. induction s as [|c s IH]; intros k Hk.
  - destruct k; [done | simpl in Hk; lia].
  - destruct k as [|k].
    + change (String.substring 0 (String.length (String c s)) (String c s) = String c s).
      apply substring_all.
    + simpl in Hk.
      change (String c (String.substring 0 k s
                        ++ String.substring k (String.length s - k) s) = String c s).
      rewrite IH; [done | lia].
Qed.

Lemma length_substring s k f :
  (k + f <= String.length s)%nat -> String.length (String.substring k f s) = f.
Proof.
  revert k f. induction s as [|c s IH]; intros k f H; simpl in H.
  - assert (k = 0%nat) by lia. assert (f = 0%nat) by lia. by subst.
  - destruct k as [|k].
    + destruct f as [|f]; [done|]. simpl. rewrite IH; [done | lia].
    + simpl. apply IH. lia.
Qed.

Lemma length_append s1 s2 :
  String.length (s1 ++ s2) = (String.length s1 + String.length s2)%nat.
Proof. induction s1 as [|c s1 IH]; simpl; [done | by rewrite IH]. Qed.

Lemma length_repeat_char c n : String.length (repeat_char c n) = n.
Proof. induction n as [|n IH]; simpl; [done | by rewrite IH]. Qed.

Lemma length_pad_zeros k s : (k <= String.length (pad_zeros k s))%nat.
Proof. unfold pad_zeros. rewrite length_append, length_repeat_char. lia. Qed.

(** Steps 9.b - 9.d of [toFixed]: the digits of [n], padded to at least
    [f + 1] of them, with the point before the last [f]. *)
Lemma fixed_digits_shape f n :
  exists int_digits frac_digits,
    fixed_digits (S f) n = int_digits ++ "." ++ frac_digits
    /\ String.length frac_digits = S f
    /\ int_digits ++ frac_digits = pad_zeros (S (S f)) (digits n).
Proof.
  unfold fixed_digits.
  set (m' := pad_zeros (S (S f)) (digits n)).
  assert (Hlen : (S (S f) <= String.length m')%nat) by apply length_pad_zeros.
  exists (String.substring 0 (String.length m' - S f) m'),
         (String.substring (String.length m' - S f) (S f) m').
  split; [done|]. split.
  - apply length_substring. lia.
  - pose proof (substring_split m' (String.length m' - S f) ltac:(lia)) as H.
    replace (String.length m' - (String.length m' - S f))%nat with (S f) in H by lia.
    exact H.
Qed.

(** The integer chosen by [toFixed] is the nearest one to the scaled value,
    the larger one in case of a tie. *)
Lemma nearest_scaled_spec f m e :
  let n := Z.of_N (nearest_scaled f m e) in
  let scaled := Zpos m * 10 ^ Z.of_nat f in
  match e with
  | Zneg k => 2 ^ Zpos k * (2 * n - 1) <= 2 * scaled < 2 ^ Zpos k * (2 * n + 1)
  | _ => n = scaled * 2 ^ e
  end.
Proof.
  unfold nearest_scaled. cbv zeta.
  assert (Hs : 0 < Zpos m * 10 ^ Z.of_nat f).
  { apply Z.mul_pos_pos; [lia | apply Z.pow_pos_nonneg; lia]. }
  destruct e as [|k|k].
  - rewrite Z2N.id; lia.
  - rewrite Z2N.id; [done|].
    apply Z.mul_nonneg_nonneg; [lia | apply Z.pow_nonneg; lia].
  - set (scaled := Zpos m * 10 ^ Z.of_nat f) in *.
    assert (Hp : 0 < 2 ^ Zpos k) by (apply Z.pow_pos_nonneg; lia).
    replace (2 ^ (Zpos k + 1)) with (2 * 2 ^ Zpos k)
      by (rewrite Z.pow_add_r by lia; lia).
    set (p := 2 ^ Zpos k) in *.
    assert (Hq : 0 <= (2 * scaled + p) / (2 * p)) by (apply Z.div_pos; lia).
    rewrite Z2N.id by exact Hq.
    pose proof (Z.mul_div_le (2 * scaled + p) (2 * p) ltac:(lia)) as Hlo.
    pose proof (Z.mul_succ_div_gt (2 * scaled + p) (2 * p) ltac:(lia)) as Hhi.
    set (q := (2 * scaled + p) / (2 * p)) in *.
    split; nia.
Qed.

(** *** The decimal digits of a number *)

Lemma append_cons x (a b : string) : String x a ++ b = String x (a ++ b).
Proof. reflexivity. Qed.

Lemma append_assoc_string (a b c : string) : (a ++ b) ++ c = a ++ (b ++ c).
Proof.
  induction a as [|x a IH]; [done|]. by rewrite !append_cons, IH.
Qed.

Lemma digits_fuel_acc fuel n acc :
  digits_fuel fuel n acc = digits_fuel fuel n "" ++ acc.
Proof.
  revert n acc. induction fuel as [|fuel IH]; intros n acc; simpl; [done|].
  destruct (n <? 10)%N; [done|].
  rewrite (IH (n / 10)%N (String (digit (n mod 10)) acc)).
  rewrite (IH (n / 10)%N (String (digit (n mod 10)) "")).
  rewrite append_assoc_string. done.
Qed.

Lemma digits_fuel_more fuel n acc :
  (n < 2 ^ N.of_nat fuel)%N -> (0 < fuel)%nat ->
  digits_fuel (S fuel) n acc = digits_fuel fuel n acc.
Proof.
  revert n acc. induction fuel as [|fuel IH]; intros n acc Hn Hf; [lia|].
  change (digits_fuel (S (S fuel)) n acc)
    with (if (n <? 10)%N then String (digit (n mod 10)) acc
          else digits_fuel (S fuel) (n / 10) (String (digit (n mod 10)) acc)).
  change (digits_fuel (S fuel) n acc)
    with (if (n <? 10)%N then String (digit (n mod 10)) acc
          else digits_fuel fuel (n / 10) (String (digit (n mod 10)) acc)).
  destruct (n <? 10)%N eqn:Hlt; [done|].
  apply N.ltb_ge in Hlt.
  rewrite Nat2N.inj_succ, N.pow_succ_r' in Hn.
  apply IH.
  - apply N.Div0.div_lt_upper_bound; lia.
  - destruct fuel; [simpl in Hn; lia | lia].
Qed.

Lemma digits_fuel_extra k fuel n acc :
  (n < 2 ^ N.of_nat fuel)%N -> (0 < fuel)%nat ->
  digits_fuel (k + fuel) n acc = digits_fuel fuel n acc.
Proof.
  intros Hn Hf. induction k as [|k IH]; [done|].
  change (S k + fuel)%nat with (S (k + fuel)).
  rewrite digits_fuel_more; [exact IH | | lia].
  eapply N.lt_le_trans; [exact Hn|].
  apply N.pow_le_mono_r; lia.
Qed.

Lemma digits_enough_fuel n : (n < 2 ^ N.of_nat (S (N.to_nat (N.log2 n))))%N.
Proof.
  rewrite Nat2N.inj_succ, N2Nat.id.
  destruct n as [|p]; [done|].
  apply N.log2_spec. lia.
Qed.

Lemma digits_any_fuel fuel n :
  (n < 2 ^ N.of_nat fuel)%N -> (0 < fuel)%nat ->
  digits_fuel fuel n "" = digits n.
Proof.
  intros Hn Hf. unfold digits.
  set (L := S (N.to_nat (N.log2 n))).
  assert (HL : (n < 2 ^ N.of_nat L)%N) by apply digits_enough_fuel.
  destruct (Nat.le_ge_cases fuel L) as [Hle|Hge].
  - replace L with ((L - fuel) + fuel)%nat at 1 by lia.
    symmetry. by apply digits_fuel_extra.
  - replace fuel with ((fuel - L) + L)%nat at 1 by lia.
    apply digits_fuel_extra; [done | unfold L; lia].
Qed.

Lemma digits_small n : (n < 10)%N -> digits n = String (digit n) "".
Proof.
  intros Hn. unfold digits. simpl.
  apply N.ltb_lt in Hn as Hb. rewrite Hb.
  by rewrite N.mod_small.
Qed.

Lemma digits_step n :
  (10 <= n)%N -> digits n = digits (n / 10) ++ String (digit (n mod 10)) "".
Proof.
  intros Hn. unfold digits at 1.
  change (digits_fuel (S (N.to_nat (N.log2 n))) n "")
    with (if (n <? 10)%N then String (digit (n mod 10)) ""
          else digits_fuel (N.to_nat (N.log2 n)) (n / 10) (String (digit (n mod 10)) "")).
  apply N.ltb_ge in Hn as Hb. rewrite Hb.
  rewrite digits_fuel_acc. f_equal.
  assert (Hlog : (3 <= N.log2 n)%N).
  { change 3%N with (N.log2 8). apply N.log2_le_mono. lia. }
  apply digits_any_fuel; [|lia].
  rewrite N2Nat.id.
  apply N.Div0.div_lt_upper_bound.
  pose proof (digits_enough_fuel n) as H.
  rewrite Nat2N.inj_succ, N2Nat.id, N.pow_succ_r' in H. lia.
Qed.

Lemma length_digits_pos n : (1 <= String.length (digits n))%nat.
Proof.
  destruct (N.lt_ge_cases n 10) as [H|H].
  - rewrite (digits_small n H). simpl. lia.
  - rewrite (digits_step n H), length_append. simpl. lia.
Qed.

Lemma append_inj_length (a b a' b' : string) :
  a ++ b = a' ++ b' -> String.length b = String.length b' -> a = a' /\ b = b'.
Proof.
  revert a'. induction a as [|x a IH]; intros a' Heq Hlen.
  - destruct a' as [|y a']; [done|].
    apply (f_equal String.length) in Heq.
    rewrite !length_append in Heq. simpl in Heq. lia.
  - destruct a' as [|y a'].
    + apply (f_equal String.length) in Heq.
      rewrite !length_append in Heq. simpl in Heq. lia.
    + rewrite !append_cons in Heq. injection Heq as -> Heq.
      destruct (IH a' Heq Hlen) as [-> ->]. done.
Qed.

(** With two fraction digits: the digits of [n / 100], the point, and the
    two last digits of [n]. *)
Lemma fixed_digits_two n :
  fixed_digits 2 n
  = digits (n / 100) ++ "." ++
    String (digit (n / 10 mod 10)) (String (digit (n mod 10)) "").
Proof.
  destruct (fixed_digits_shape 1 n) as (a & b & Hfix & Hlen & Hcat).
  rewrite Hfix.
  assert (Hgoal : a ++ b = digits (n / 100)
                           ++ String (digit (n / 10 mod 10)) (String (digit (n mod 10)) "")).
  { rewrite Hcat. unfold pad_zeros.
    destruct (N.lt_ge_cases n 10) as [H10|H10].
    - rewrite (digits_small n H10). simpl.
      rewrite (N.div_small n 100) by lia. rewrite (N.div_small n 10) by lia.
      rewrite (N.mod_small n 10) by lia. reflexivity.
    - rewrite (digits_step n H10).
      destruct (N.lt_ge_cases (n / 10) 10) as [H100|H100].
      + rewrite (digits_small _ H100). simpl.
        assert (n < 100)%N.
        { destruct (N.lt_ge_cases n 100) as [?|Hge]; [done|].
          assert (10 <= n / 10)%N by (apply N.div_le_lower_bound; lia). lia. }
        rewrite (N.div_small n 100) by lia.
        rewrite (N.mod_small (n / 10) 10) by lia. reflexivity.
      + rewrite (digits_step _ H100).
        rewrite N.Div0.div_div. change (10 * 10)%N with 100%N.
        rewrite !length_append. simpl.
        pose proof (length_digits_pos (n / 100)) as Hpos.
        replace (3 - (String.length (digits (n / 100)) + 1 + 1))%nat with 0%nat by lia.
        simpl. rewrite append_assoc_string. reflexivity. }
  destruct (append_inj_length _ _ _ _ Hgoal Hlen) as [-> ->]. reflexivity.
Qed.

(** *** Zero padding *)

Lemma fixed_width_zero k : fixed_width k 0 = repeat_char "0" k.
Proof.
  induction k as [|k IH]; [done|].
  change (fixed_width (S k) 0) with (fixed_width k (0 / 10) ++ String (digit (0 mod 10)) "").
  change (0 / 10)%N with 0%N. rewrite IH. clear IH.
  induction k as [|k IH]; [done|].
  change (repeat_char "0" (S k)) with (String "0"%char (repeat_char "0" k)).
  rewrite append_cons, IH. done.
Qed.

Lemma pad_zeros_digits k n :
  (n < 10 ^ N.of_nat k)%N -> (0 < k)%nat ->
  pad_zeros k (digits n) = fixed_width k n.
Proof.
  revert n. induction k as [|k IH]; intros n Hn Hk; [lia|].
  change (fixed_width (S k) n)
    with (fixed_width k (n / 10) ++ String (digit (n mod 10)) "").
  destruct (N.lt_ge_cases n 10) as [H10|H10].
  - rewrite (digits_small n H10), (N.div_small n 10), (N.mod_small n 10) by lia.
    rewrite fixed_width_zero. unfold pad_zeros. simpl String.length.
    by replace (S k - 1)%nat with k by lia.
  - rewrite (digits_step n H10).
    assert (Hk' : (0 < k)%nat).
    { destruct k; [|lia]. simpl in Hn. lia. }
    rewrite <- (IH (n / 10)%N); [|apply N.Div0.div_lt_upper_bound;
                                   rewrite Nat2N.inj_succ, N.pow_succ_r' in Hn; lia | done].
    unfold pad_zeros. rewrite length_append. simpl String.length.
    replace (S k - (String.length (digits (n / 10)) + 1))%nat
      with (k - String.length (digits (n / 10)))%nat by lia.
    by rewrite append_assoc_string.
Qed.

(** date-fns [dd/MM/yyyy] on a calendar date: two digits, a slash, two
    digits, a slash, four digits. *)
Lemma format_calendar_date d :
  calendar_date d ->
  Pdf.format_dd_MM_yyyy d
  = fixed_width 2 (Z.to_N (Pdf.day d)) ++ "/" ++
    fixed_width 2 (Z.to_N (Pdf.month d)) ++ "/" ++
    fixed_width 4 (Z.to_N (Pdf.year d)).
Proof.
  intros (Hd & Hm & Hy). unfold Pdf.format_dd_MM_yyyy, string_of_Z.
  assert (Hpos : (0 <? Pdf.year d) = true) by (apply Z.ltb_lt; lia).
  rewrite Hpos.
  assert (Hneg : forall z, 1 <= z -> (z <? 0) = false)
    by (intros z Hz; apply Z.ltb_ge; lia).
  rewrite !Hneg by lia.
  change (String.append "" ?x) with x.
  rewrite <- !(Zabs2N.abs_N_nonneg) by lia.
  rewrite !pad_zeros_digits; try lia; done.
Qed.

(** [toFixed(2)] of a finite number below [10^21]: the sign, the integer
    digits, a point and two digits, for the nearest number of hundredths. *)
Lemma toFixed_two large s m e :
  ge_1e21 m e = false ->
  exists n,
    nearest_hundredths m e n
    /\ toFixed large 2 (S754_finite s m e)
       = (if s then "-" else "") ++ digits (n / 100) ++ "." ++
         String (digit (n / 10 mod 10)) (String (digit (n mod 10)) "").
Proof.
  intros Hsmall. exists (nearest_scaled 2 m e). split.
  - pose proof (nearest_scaled_spec 2 m e) as H. cbv zeta in H.
    unfold nearest_hundredths. change (10 ^ Z.of_nat 2) with 100 in H.
    destruct e; exact H.
  - unfold toFixed. rewrite Hsmall, fixed_digits_two. done.
Qed.

End Fixed.

(** C5: the document opens with the company name, centred; then comes a
    centred subtitle that ends with the current date, written dd/mm/yyyy for
    a calendar date; then one table whose head is the three columns product,
    category and price (labelled "Produto", "Categoria", "Preço") and whose
    body holds exactly one row per input product, in the input order: the
    name, the category or "-" when there is none, and "R$ " followed by the
    price fixed to two decimals.  The price 19.9 is printed "R$ 19.90". *)
Theorem catalog_layout (host : Pdf.Host) (today : Pdf.LocalDate)
    (products : list Pdf.Product) (companyInfo : Pdf.CompanyInfo) :
  let document := Pdf.render host today products companyInfo in
  document !! 1%nat
  = Some (Pdf.Text (Pdf.company_name companyInfo)
            (Js.div (Pdf.pageSize_width host) (Js.of_Z 2)) (Js.of_Z 20) Pdf.AlignCenter)
  /\ (exists date,
        document !! 3%nat
        = Some (Pdf.Text ("Catálogo de Produtos - " ++ date)
                  (Js.div (Pdf.pageSize_width host) (Js.of_Z 2)) (Js.of_Z 30)
                  Pdf.AlignCenter)
        /\ (calendar_date today ->
            date = fixed_width 2 (Z.to_N (Pdf.day today)) ++ "/" ++
                   fixed_width 2 (Z.to_N (Pdf.month today)) ++ "/" ++
                   fixed_width 4 (Z.to_N (Pdf.year today))))
  /\ (exists options,
        document !! 4%nat = Some (Pdf.AutoTable options)
        /\ (forall j other, document !! j = Some (Pdf.AutoTable other) -> j = 4%nat)
        /\ Pdf.head options = [["Produto"; "Categoria"; "Preço"]]
        /\ length (Pdf.body options) = length products
        /\ (forall i product, products !! i = Some product ->
            exists category_cell price_cell,
              Pdf.body options !! i
              = Some [Pdf.name product; category_cell; price_cell]
              /\ (Pdf.category product = None -> category_cell = "-")
              /\ (forall c, Pdf.category product = Some c -> c <> "" ->
                  category_cell = c)
              /\ price_cell
                 = "R$ " ++ Js.toFixed (Pdf.toString_large host) 2 (Pdf.price product)
              /\ (forall s m e,
                    Pdf.price product = S754_finite s m e ->
                    Js.ge_1e21 m e = false ->
                    exists n,
                      nearest_hundredths m e n
                      /\ price_cell
                         = "R$ " ++ (if s then "-" else "") ++ Js.digits (n / 100)
                           ++ "." ++ String (Js.digit (n / 10 mod 10))
                                       (String (Js.digit (n mod 10)) ""))))
  /\ Pdf.table_row host
       {| Pdf.name := "Widget"; Pdf.price := Js.of_decimal false 199 (-1);
          Pdf.category := Some "Tools" |}
     = ["Widget"; "Tools"; "R$ 19.90"].
Proof.
  cbv zeta. rewrite render_shape. unfold document_top.
  split; [reflexivity|]. split; [|split; [|reflexivity]].
  - exists (Pdf.format_dd_MM_yyyy today). split; [reflexivity|].
    apply format_calendar_date.
  - eexists. split; [reflexivity|]. split; [|split; [reflexivity|]].
    + intros j other Hj.
      do 4 (destruct j as [|j]; [discriminate Hj|]).
      destruct j as [|j]; [done|]. destruct j as [|j]; [discriminate Hj|].
      exfalso. simpl in Hj.
      apply list_elem_of_lookup_2 in Hj.
      apply elem_of_app in Hj as [Hj|Hj];
        apply elem_of_contact_line in Hj as (v & _ & _ & Hop); discriminate Hop.
    + simpl Pdf.body. split; [apply length_map|].
      intros i product Hi.
      exists (Js.opt_or (Pdf.category product) "-"),
             ("R$ " ++ Js.toFixed (Pdf.toString_large host) 2 (Pdf.price product)).
      split; [by rewrite list_lookup_fmap, Hi|].
      split; [by intros ->|].
      split; [intros c -> Hc; by destruct c|].
      split; [reflexivity|].
      intros s m e -> Hsmall.
      destruct (toFixed_two (Pdf.toString_large host) s m e Hsmall) as (n & Hn & Hfix).
      exists n. split; [exact Hn|]. by rewrite Hfix.
Qed.

Lemma catalog_layout_witness :
  Pdf.render Sample.a4 Sample.day1 [Sample.widget] Sample.acme !! 3%nat
  = Some (Pdf.Text "Catálogo de Produtos - 22/01/2025"
            (Js.div (Pdf.pageSize_width Sample.a4) (Js.of_Z 2)) (Js.of_Z 30)
            Pdf.AlignCenter)
  /\ exists options,
       Pdf.render Sample.a4 Sample.day1 [Sample.widget] Sample.acme !! 4%nat
       = Some (Pdf.AutoTable options)
       /\ Pdf.body options = [["Widget"; "Tools"; "R$ 19.90"]].
Proof.
  destruct (catalog_layout Sample.a4 Sample.day1 [Sample.widget] Sample.acme)
    as (_ & (date & Hsub & Hdate) & (options & Htable & _ & _ & Hlen & Hrows) & _).
  split.
  - rewrite Hsub, Hdate; [reflexivity|]. unfold calendar_date; simpl; lia.
  - exists options. split; [exact Htable|].
    destruct (Hrows 0%nat Sample.widget eq_refl)
      as (category_cell & price_cell & Hrow & _ & Hcat & Hprice & _).
    rewrite (Hcat "Tools" eq_refl ltac:(discriminate)) in Hrow.
    rewrite Hprice in Hrow.
    destruct (Pdf.body options) as [|row [|row' rest]]; [discriminate Hlen| |discriminate Hlen].
    simpl in Hrow. injection Hrow as ->. reflexivity.
Defined.

(** C6 (as stated, refuted): two calls with the same products and the same
    company, made on different days, give different documents. *)
Lemma same_arguments_different_days :
  Pdf.render Sample.a4 Sample.day1 [Sample.widget] Sample.acme
  <> Pdf.render Sample.a4 Sample.day2 [Sample.widget] Sample.acme.
Proof.
  intros H. apply (f_equal (fun document => document !! 3%nat)) in H.
  vm_compute in H. discriminate H.
Qed.

(** C6 (amended): the renderer does not change its arguments, and what it
    returns is not settled by them: it reads the current date, and two calls
    with equal products and company made on dates that are written
    differently give different documents. *)
Theorem renderer_reads_arguments_and_date (host : Pdf.Host) (today : Pdf.LocalDate)
    (products : list Pdf.Product) (companyInfo : Pdf.CompanyInfo) :
  (forall h,
     Pdf.products_arg (Pdf.generateProductCatalog host today h).2 = Pdf.products_arg h
     /\ Pdf.companyInfo_arg (Pdf.generateProductCatalog host today h).2
        = Pdf.companyInfo_arg h)
  /\ (forall today',
        Pdf.format_dd_MM_yyyy today <> Pdf.format_dd_MM_yyyy today' ->
        Pdf.render host today products companyInfo
        <> Pdf.render host today' products companyInfo).
Proof.
  split; [apply generateProductCatalog_reads_only|].
  intros today' Hdate H. apply Hdate.
  rewrite !render_shape in H. unfold document_top in H.
  apply (f_equal (fun document => document !! 3%nat)) in H.
  simpl in H. injection H as H. exact H.
Qed.

Lemma renderer_reads_arguments_and_date_witness :
  Pdf.format_dd_MM_yyyy Sample.day1 <> Pdf.format_dd_MM_yyyy Sample.day2
  /\ Pdf.render Sample.a4 Sample.day1 [] Sample.acme_with_contacts
     <> Pdf.render Sample.a4 Sample.day2 [] Sample.acme_with_contacts.
Proof.
  assert (Hdate : Pdf.format_dd_MM_yyyy Sample.day1
                  <> Pdf.format_dd_MM_yyyy Sample.day2).
  { vm_compute. discriminate. }
  split; [exact Hdate|].
  apply (proj2 (renderer_reads_arguments_and_date Sample.a4 Sample.day1 []
                  Sample.acme_with_contacts) Sample.day2 Hdate).
Defined.

(** C9: in the footer, a left-aligned line "Tel: ..." is drawn exactly when
    the company has a (non-empty) contact phone, and a right-aligned line
    "Email: ..." exactly when it has a (non-empty) contact e-mail; when a
    field is absent nothing is drawn in its place: the only other texts of
    the document are the centred company name and subtitle. *)
Theorem footer_lines_iff_contacts (host : Pdf.Host) (today : Pdf.LocalDate)
    (products : list Pdf.Product) (companyInfo : Pdf.CompanyInfo)
    (text : string) (x y : Js.number) :
  let document := Pdf.render host today products companyInfo in
  (Pdf.Text text x y Pdf.AlignLeft ∈ document
   <-> exists phone, Pdf.contact_phone companyInfo = Some phone /\ phone <> ""
                     /\ text = "Tel: " ++ phone
                     /\ x = Js.of_Z 20
                     /\ y = Js.sub (Pdf.pageSize_height host) (Js.of_Z 20))
  /\ (Pdf.Text text x y Pdf.AlignRight ∈ document
      <-> exists email, Pdf.contact_email companyInfo = Some email /\ email <> ""
                        /\ text = "Email: " ++ email
                        /\ x = Js.sub (Pdf.pageSize_width host) (Js.of_Z 20)
                        /\ y = Js.sub (Pdf.pageSize_height host) (Js.of_Z 20))
  /\ (Pdf.Text text x y Pdf.AlignCenter ∈ document
      <-> x = Js.div (Pdf.pageSize_width host) (Js.of_Z 2)
          /\ ((text = Pdf.company_name companyInfo /\ y = Js.of_Z 20)
              \/ (text = "Catálogo de Produtos - " ++ Pdf.format_dd_MM_yyyy today
                  /\ y = Js.of_Z 30))).
Proof.
  cbv zeta. rewrite render_shape.
  rewrite !elem_of_app, !elem_of_contact_line, !text_in_document_top.
  unfold phone_line, email_line, Pdf.footerY.
  split; [|split]; split.
  - intros [(Habs & _)|[(v & Hv & Hne & H)|(v & _ & _ & H)]];
      [discriminate Habs | | discriminate H].
    injection H as -> -> ->. by exists v.
  - intros (phone & Hp & Hne & -> & -> & ->). right; left. by exists phone.
  - intros [(Habs & _)|[(v & _ & _ & H)|(v & Hv & Hne & H)]];
      [discriminate Habs | discriminate H |].
    injection H as -> -> ->. by exists v.
  - intros (email & Hp & Hne & -> & -> & ->). right; right. by exists email.
  - intros [(_ & H)|[(v & _ & _ & H)|(v & _ & _ & H)]];
      [exact H | discriminate H | discriminate H].
  - intros H. left. by split.
Qed.

Example footer_without_contacts :
  Pdf.render Sample.a4 Sample.day1 [Sample.widget] Sample.acme
  = document_top Sample.a4 Sample.day1 [Sample.widget] Sample.acme.
Proof. reflexivity. Qed.

Example footer_with_contacts :
  drop 6 (Pdf.render Sample.a4 Sample.day1 [Sample.widget] Sample.acme_with_contacts)
  = [ Pdf.Text "Tel: +55 11 5555-0100" (Js.of_Z 20)
        (Js.sub (Pdf.pageSize_height Sample.a4) (Js.of_Z 20)) Pdf.AlignLeft;
      Pdf.Text "Email: vendas@acme.example"
        (Js.sub (Pdf.pageSize_width Sample.a4) (Js.of_Z 20))
        (Js.sub (Pdf.pageSize_height Sample.a4) (Js.of_Z 20)) Pdf.AlignRight ].
Proof. reflexivity. Qed.

(** ** The page *)

Section Page.
Import Js App.

Lemma generatePDF_blocked env st :
  size (selectedProducts st) = 0%nat ->
  generatePDF env st = (setError (Some select_one_error) st, []).
Proof. intros H. unfold generatePDF. by rewrite decide_True. Qed.

Lemma generatePDF_rendered env st products companyInfo :
  Rendered products companyInfo ∈ (generatePDF env st).2 ->
  size (selectedProducts st) <> 0%nat
  /\ products = map renderer_argument (selectedProductList st).
Proof.
  unfold generatePDF.
  destruct (decide (size (selectedProducts st) = 0%nat)) as [Hz|Hnz]; simpl.
  - by intros ?%elem_of_nil.
  - destruct (Supabase.error (company_settings_query env)); simpl;
      [by intros ?%elem_of_nil|].
    destruct (Supabase.data (company_settings_query env)); simpl;
      [|by intros ?%elem_of_nil].
    rewrite !elem_of_cons, elem_of_nil.
    intros [H|[H|[]]]; [|discriminate H].
    injection H as -> ->. done.
Qed.

Lemma selectedProductList_nonempty st product :
  product ∈ products st ->
  pd_id product ∈ selectedProducts st ->
  selectedProductList st <> [].
Proof.
  intros Hin Hsel Hnil.
  assert (H : product ∈ selectedProductList st).
  { unfold selectedProductList. apply list_elem_of_filter. by split. }
  rewrite Hnil in H. by apply elem_of_nil in H.
Qed.

End Page.

(** C4 (the code at the failing input): a selected product whose store price
    is 10.00 and whose catalog price is 12.00 is shown with 12 in the
    "Preço Catálogo" column of the page, and printed "R$ 10.00" in the PDF:
    [generatePDF] hands the store price to the renderer, whatever the catalog
    price is. *)
Theorem pdf_prints_store_price :
  (forall product, Pdf.price (App.renderer_argument product) = pd_price product)
  /\ App.displayed_catalog_price Sample.loaded = Js.of_decimal false 12 0
  /\ exists blob options,
       App.generatePDF Sample.pdf_env (Sample.page {["p1"]} [Sample.loaded])
       = (Sample.page {["p1"]} [Sample.loaded],
          [ App.Rendered
              [ {| Pdf.name := "Widget"; Pdf.price := Js.of_decimal false 10 0;
                   Pdf.category := Some "Tools" |} ]
              Sample.acme;
            App.Downloaded "catalogo-produtos.pdf" blob ])
       /\ blob !! 4%nat = Some (Pdf.AutoTable options)
       /\ Pdf.body options = [["Widget"; "Tools"; "R$ 10.00"]].
Proof.
  split; [reflexivity|]. split; [reflexivity|].
  eexists _, _. split; [|split].
  - vm_compute. reflexivity.
  - reflexivity.
  - reflexivity.
Qed.

(** C7 (as stated, refuted): after the list is reloaded without a product
    that is still selected, the selection is not empty, the action is not
    blocked, and the renderer is invoked with an empty product list. *)
Lemma stale_selection_renders_empty_list :
  let st := App.fetchProducts (Sample.loads [])
              (App.handleProductSelect "p1"
                 (App.fetchProducts (Sample.loads [Sample.loaded]) Sample.initial)) in
  size (App.selectedProducts st) = 1%nat
  /\ App.Rendered [] Sample.acme ∈ (App.generatePDF Sample.pdf_env st).2.
Proof.
  cbv zeta. split; [vm_compute; reflexivity|].
  vm_compute. apply list_elem_of_here.
Qed.

(** C7 (amended): when zero products are selected, generating the PDF is
    blocked with the message asking to select at least one product and the
    renderer is not invoked; the renderer is invoked only when at least one
    product is selected, with the loaded products whose id is selected, in
    the order of the list; that list is non-empty whenever a selected id
    belongs to a loaded product. *)
Theorem empty_selection_blocks_rendering (env : App.PdfEnv) (st : App.State) :
  (size (App.selectedProducts st) = 0%nat ->
   App.generatePDF env st
   = (App.setError (Some "Selecione pelo menos um produto para gerar o PDF.") st, []))
  /\ (forall products companyInfo,
        App.Rendered products companyInfo ∈ (App.generatePDF env st).2 ->
        size (App.selectedProducts st) <> 0%nat
        /\ products = map App.renderer_argument (App.selectedProductList st)
        /\ ((exists product, product ∈ App.products st
                              /\ pd_id product ∈ App.selectedProducts st) ->
            products <> [])).
Proof.
  split; [apply generatePDF_blocked|].
  intros products companyInfo Hin.
  destruct (generatePDF_rendered env st products companyInfo Hin) as [Hnz ->].
  split; [done|]. split; [done|].
  intros (product & Hp & Hsel) Hnil.
  apply fmap_nil_inv in Hnil.
  by apply (selectedProductList_nonempty st product Hp Hsel).
Qed.

Lemma empty_selection_blocks_rendering_witness :
  App.generatePDF Sample.pdf_env (Sample.page ∅ [Sample.loaded])
  = (App.setError (Some "Selecione pelo menos um produto para gerar o PDF.")
       (Sample.page ∅ [Sample.loaded]), [])
  /\ (size (App.selectedProducts (Sample.page {["p1"]} [Sample.loaded])) <> 0%nat
      /\ [App.renderer_argument Sample.loaded]
         = map App.renderer_argument
             (App.selectedProductList (Sample.page {["p1"]} [Sample.loaded]))
      /\ [App.renderer_argument Sample.loaded] <> []).
Proof.
  split.
  - apply (proj1 (empty_selection_blocks_rendering Sample.pdf_env
                    (Sample.page ∅ [Sample.loaded]))).
    reflexivity.
  - destruct (proj2 (empty_selection_blocks_rendering Sample.pdf_env
                       (Sample.page {["p1"]} [Sample.loaded]))
                    [App.renderer_argument Sample.loaded] Sample.acme)
      as (Hsize & Hlist & Hnonempty).
    + vm_compute. apply list_elem_of_here.
    + split; [exact Hsize|]. split; [exact Hlist|].
      apply Hnonempty. exists Sample.loaded. split.
      * apply list_elem_of_here.
      * change ("p1" ∈ ({["p1"]} : gset string)).
        apply elem_of_singleton_2. reflexivity.
Defined.

(** C8 (as stated, refuted): a run that writes one row resolves to
    [undefined], not to the number 1. *)
Lemma sync_returns_no_count :
  let run := App.handleSync (Sample.sync_env (Sample.listing [Sample.remote "15.50"]))
               (Sample.page ∅ []) [] in
  length run.1.2 = 1%nat
  /\ run.2 = App.Undefined
  /\ run.2 <> App.Number 1.
Proof. cbv zeta. split; [reflexivity|]. split; [reflexivity | discriminate]. Qed.

(** C8 (amended): [handleSync] resolves to [undefined] in every case and
    hands no count back.  When the page knows of no settings row it writes
    nothing and shows the message asking to configure first; [syncProducts]
    itself throws a plain [Error] when the settings row cannot be loaded or
    is absent.  When the remote listing is obtained and the store accepts the
    statement, the table [handleSync] leaves is the one upsert of all the
    normalised products, one row per product: every row of the statement
    that no later row shares its [woo_id] with is in the table with all its
    columns by the time [handleSync] returns. *)
Theorem handleSync_writes_all_and_returns_nothing
    (env : App.SyncEnv) (st : App.State) (t : CatalogStore.Table) :
  (App.handleSync env st t).2 = App.Undefined
  /\ (App.hasSettings st <> Some true ->
      App.handleSync env st t
      = (App.setError
           (Some "Configure primeiro as informações do WooCommerce nas configurações.") st,
         t, App.Undefined))
  /\ (forall w,
        is_Some (Supabase.error (WooCommerce.settings_query w))
        \/ Supabase.data (WooCommerce.settings_query w) = None ->
        exists message,
          WooCommerce.syncProducts w = Js.throw (Js.ErrorInstance "Error" message)
          /\ (message = WooCommerce.settings_load_error
              \/ message = WooCommerce.settings_missing_error))
  /\ (forall wooProducts,
        App.hasSettings st = Some true ->
        WooCommerce.syncProducts (App.world env) = Js.ok wooProducts ->
        CatalogStore.rejects (App.backend env) t
          (App.upsert_payload (App.clock env) wooProducts) = None ->
        let payload := App.upsert_payload (App.clock env) wooProducts in
        let t' := (App.handleSync env st t).1.2 in
        length payload = length wooProducts
        /\ t' = CatalogStore.upsert_rows "woo_id"
                  (CatalogStore.defaults (App.backend env)) payload t
        /\ (forall j p,
              payload !! j = Some p ->
              (forall j' p', (j < j')%nat -> payload !! j' = Some p' ->
                             p' !! "woo_id" <> p !! "woo_id") ->
              exists r, r ∈ t' /\ p ⊆ r)).
Proof.
  split; [|split; [|split]].
  - unfold App.handleSync.
    destruct (App.hasSettings st) as [[|]|]; try reflexivity.
    destruct (WooCommerce.syncProducts _) as [e|ws]; [reflexivity|].
    destruct (CatalogStore.upsert _ _ _ _); reflexivity.
  - intros Hno. unfold App.handleSync.
    destruct (App.hasSettings st) as [[|]|]; [done | reflexivity | reflexivity].
  - intros w Habsent.
    unfold WooCommerce.syncProducts, WooCommerce.syncProducts_try.
    destruct (Supabase.error (WooCommerce.settings_query w)) as [e|].
    + exists WooCommerce.settings_load_error. split; [reflexivity | by left].
    + destruct Habsent as [[e He]|Hdata]; [discriminate He|].
      rewrite Hdata. exists WooCommerce.settings_missing_error.
      split; [reflexivity | by right].
  - intros wooProducts Hset Hsync Haccept. cbv zeta.
    assert (Hrun : (App.handleSync env st t).1.2
                   = CatalogStore.upsert_rows "woo_id"
                       (CatalogStore.defaults (App.backend env))
                       (App.upsert_payload (App.clock env) wooProducts) t).
    { unfold App.handleSync. rewrite Hset, Hsync. unfold Js.ok. cbv beta iota.
      unfold CatalogStore.upsert. rewrite Haccept. reflexivity. }
    split; [apply length_imap|]. split; [exact Hrun|].
    intros j p Hj Hlater. rewrite Hrun.
    destruct (upsert_payload_key _ _ _ _ Hj) as (w & _ & Hkey).
    apply (upsert_rows_written "woo_id" _ _ t j p Hj); [by eexists | exact Hlater].
Qed.

Lemma handleSync_writes_all_and_returns_nothing_witness :
  App.handleSync (Sample.sync_env (Sample.listing [Sample.remote "15.50"]))
    (App.checkSettings (Some 0%nat) Sample.initial) [Sample.stored_row]
  = (App.setError
       (Some "Configure primeiro as informações do WooCommerce nas configurações.")
       (App.checkSettings (Some 0%nat) Sample.initial),
     [Sample.stored_row], App.Undefined)
  /\ (exists message,
        WooCommerce.syncProducts
          {| WooCommerce.settings_query := Sample.settings_absent;
             WooCommerce.fetch := fun _ => Js.throw (Js.OtherValue "unreachable") |}
        = Js.throw (Js.ErrorInstance "Error" message)
        /\ (message = WooCommerce.settings_load_error
            \/ message = WooCommerce.settings_missing_error))
  /\ (exists r,
        r ∈ (App.handleSync (Sample.sync_env (Sample.listing [Sample.remote "15.50"]))
               (Sample.page ∅ []) [Sample.stored_row]).1.2
        /\ <["updated_at" := Supabase.VStr "2025-01-22T13:43:37.000Z"]>
             (App.spread (WooCommerce.normalize (Sample.remote "15.50"))) ⊆ r).
Proof.
  split; [|split].
  - apply (proj1 (proj2 (handleSync_writes_all_and_returns_nothing
                           (Sample.sync_env (Sample.listing [Sample.remote "15.50"]))
                           (App.checkSettings (Some 0%nat) Sample.initial)
                           [Sample.stored_row]))).
    discriminate.
  - apply (proj1 (proj2 (proj2 (handleSync_writes_all_and_returns_nothing
                                  (Sample.sync_env (Sample.listing []))
                                  Sample.initial [])))).
    left. eexists. reflexivity.
  - destruct (proj2 (proj2 (proj2 (handleSync_writes_all_and_returns_nothing
                                     (Sample.sync_env (Sample.listing [Sample.remote "15.50"]))
                                     (Sample.page ∅ []) [Sample.stored_row])))
                    [WooCommerce.normalize (Sample.remote "15.50")]
                    eq_refl eq_refl eq_refl)
      as (_ & _ & Hall).
    apply (Hall 0%nat); [reflexivity|].
    intros j' p' Hlt Hj'. destruct j' as [|j']; [lia | discriminate Hj'].
Defined.

(* ===================================================================== *)
(** * Further properties of the sources *)
(* ===================================================================== *)

(** ** The selection *)

(** X1: pressing "Selecionar" twice on the same product puts the page back
    exactly as it was. *)
Theorem select_twice_restores (productId : string) (st : App.State) :
  App.handleProductSelect productId (App.handleProductSelect productId st) = st.
Proof.
  destruct st as [ps sel term ld sy er hs].
  unfold App.handleProductSelect, App.setSelectedProducts; simpl.
  f_equal.
  destruct (decide (productId ∈ sel)) as [Hin|Hout].
  - rewrite decide_False by (rewrite elem_of_difference, elem_of_singleton; tauto).
    apply set_eq. intros x.
    rewrite elem_of_union, elem_of_difference, elem_of_singleton.
    destruct (decide (x = productId)) as [->|]; tauto.
  - rewrite decide_True by (rewrite elem_of_union, elem_of_singleton; tauto).
    apply set_eq. intros x.
    rewrite elem_of_difference, elem_of_union, elem_of_singleton.
    destruct (decide (x = productId)) as [->|]; tauto.
Qed.

(** X2: "Selecionar" flips the membership of that product id, leaves the
    membership of every other id alone, changes the number of selected
    products by exactly one, and touches nothing else on the page. *)
Theorem select_flips_one (productId other : string) (st : App.State) :
  let st' := App.handleProductSelect productId st in
  (productId ∈ App.selectedProducts st' <-> productId ∉ App.selectedProducts st)
  /\ (other <> productId ->
      (other ∈ App.selectedProducts st' <-> other ∈ App.selectedProducts st))
  /\ size (App.selectedProducts st')
     = (if decide (productId ∈ App.selectedProducts st)
        then size (App.selectedProducts st) - 1
        else size (App.selectedProducts st) + 1)%nat
  /\ App.products st' = App.products st
  /\ App.error st' = App.error st.
Proof.
  cbv zeta. unfold App.handleProductSelect, App.setSelectedProducts; simpl.
  destruct (decide (productId ∈ App.selectedProducts st)) as [Hin|Hout].
  - split; [|split; [|split; [|done]]].
    + rewrite elem_of_difference, elem_of_singleton. tauto.
    + intros Hne. rewrite elem_of_difference, elem_of_singleton. tauto.
    + rewrite size_difference by (by apply singleton_subseteq_l).
      by rewrite size_singleton.
  - split; [|split; [|split; [|done]]].
    + rewrite elem_of_union, elem_of_singleton. tauto.
    + intros Hne. rewrite elem_of_union, elem_of_singleton. tauto.
    + rewrite size_union by (apply disjoint_singleton_r; exact Hout).
      by rewrite size_singleton.
Qed.

Lemma select_flips_one_witness :
  "p2" ∈ App.selectedProducts
           (App.handleProductSelect "p1" (Sample.page {["p2"]} [Sample.loaded; Sample.bare]))
  <-> "p2" ∈ App.selectedProducts (Sample.page {["p2"]} [Sample.loaded; Sample.bare]).
Proof.
  apply (proj1 (proj2 (select_flips_one "p1" "p2"
                         (Sample.page {["p2"]} [Sample.loaded; Sample.bare])))).
  discriminate.
Defined.

Section SelectionInvariant.
Import App.

Lemma selection_loaded_select productId st :
  selection_loaded st ->
  (exists product, product ∈ products st /\ pd_id product = productId) ->
  selection_loaded (handleProductSelect productId st).
Proof.
  intros Hinv Hloaded id. unfold handleProductSelect; simpl.
  destruct (decide (productId ∈ selectedProducts st)).
  - rewrite elem_of_difference. intros [Hid _]. by apply Hinv.
  - rewrite elem_of_union, elem_of_singleton. intros [Hid| ->]; [by apply Hinv | done].
Qed.

Lemma selection_loaded_price_update updateError productId v st t :
  selection_loaded st ->
  selection_loaded (handlePriceUpdate updateError productId v st t).1.
Proof.
  intros Hinv. unfold handlePriceUpdate. destruct updateError; [done|].
  intros id Hid. simpl in *. destruct (Hinv id Hid) as (p & Hp & Hpid).
  exists (if decide (pd_id p = productId) then set_catalog_price v p else p).
  split.
  - apply list_elem_of_fmap. by exists p.
  - by destruct (decide (pd_id p = productId)).
Qed.

End SelectionInvariant.

(** X3: as long as products are only selected from the loaded list, every
    selected id belongs to a loaded product: the property holds when nothing
    is selected and is kept by "Selecionar" on a loaded product and by a
    catalog price edit; while it holds, a non-empty selection always gives
    the renderer a non-empty product list. *)
Theorem selection_stays_within_loaded (st : App.State) :
  (App.selectedProducts st = ∅ -> selection_loaded st)
  /\ (selection_loaded st ->
      (forall product, product ∈ App.products st ->
         selection_loaded (App.handleProductSelect (pd_id product) st))
      /\ (forall updateError productId v t,
            selection_loaded (App.handlePriceUpdate updateError productId v st t).1)
      /\ (size (App.selectedProducts st) <> 0%nat ->
          App.selectedProductList st <> [])).
Proof.
  split.
  - intros Hempty id Hid. rewrite Hempty in Hid. by apply not_elem_of_empty in Hid.
  - intros Hinv. split; [|split].
    + intros product Hp. apply selection_loaded_select; [done|]. by exists product.
    + intros. by apply selection_loaded_price_update.
    + intros Hsize.
      destruct (set_choose_L (App.selectedProducts st)) as [id Hid].
      { intros Hempty. apply Hsize. rewrite Hempty. apply size_empty. }
      destruct (Hinv id Hid) as (product & Hp & <-).
      by apply (selectedProductList_nonempty st product).
Qed.

Lemma selection_stays_within_loaded_witness :
  selection_loaded (Sample.page ∅ [Sample.loaded])
  /\ selection_loaded (App.handleProductSelect "p1" (Sample.page ∅ [Sample.loaded]))
  /\ App.selectedProductList
       (App.handleProductSelect "p1" (Sample.page ∅ [Sample.loaded])) <> [].
Proof.
  assert (H0 : selection_loaded (Sample.page ∅ [Sample.loaded])).
  { apply (proj1 (selection_stays_within_loaded (Sample.page ∅ [Sample.loaded]))).
    reflexivity. }
  assert (H1 : selection_loaded
                 (App.handleProductSelect "p1" (Sample.page ∅ [Sample.loaded]))).
  { apply (proj1 (proj2 (selection_stays_within_loaded
                           (Sample.page ∅ [Sample.loaded])) H0) Sample.loaded).
    apply list_elem_of_here. }
  split; [exact H0|]. split; [exact H1|].
  apply (proj2 (proj2 (proj2 (selection_stays_within_loaded
                               (App.handleProductSelect "p1"
                                  (Sample.page ∅ [Sample.loaded]))) H1))).
  vm_compute. discriminate.
Defined.

(** ** How a synchronisation fails *)

(** X4: whatever goes wrong, [syncProducts] only ever throws instances of
    [Error]: an [Error] raised inside is passed on unchanged, any other
    thrown value is replaced by the "unknown error" [Error]. *)
Theorem syncProducts_throws_errors_only (w : WooCommerce.World) (e : Js.Thrown) :
  WooCommerce.syncProducts w = Js.throw e ->
  Js.instanceof_Error e = true
  /\ exists raised,
       WooCommerce.syncProducts_try w = Js.throw raised
       /\ (Js.instanceof_Error raised = true -> e = raised)
       /\ (Js.instanceof_Error raised = false ->
           e = Js.new_Error "Erro desconhecido ao sincronizar produtos").
Proof.
  unfold WooCommerce.syncProducts.
  destruct (WooCommerce.syncProducts_try w) as [raised|ps]; [|discriminate].
  intros [= <-]. unfold WooCommerce.rethrow.
  destruct raised as [n m|d]; simpl.
  - split; [done|]. eexists. split; [done|]. split; [done | discriminate].
  - split; [done|]. eexists. split; [done|]. split; [discriminate | done].
Qed.

Lemma syncProducts_throws_errors_only_witness :
  Js.instanceof_Error (Js.ErrorInstance "TypeError" "Failed to fetch") = true
  /\ exists raised,
       WooCommerce.syncProducts_try Sample.unreachable = Js.throw raised
       /\ (Js.instanceof_Error raised = true ->
           Js.ErrorInstance "TypeError" "Failed to fetch" = raised)
       /\ (Js.instanceof_Error raised = false ->
           Js.ErrorInstance "TypeError" "Failed to fetch"
           = Js.new_Error "Erro desconhecido ao sincronizar produtos").
Proof.
  apply (syncProducts_throws_errors_only Sample.unreachable). reflexivity.
Defined.

(** X5: [syncProducts] resolves to products only when the settings row was
    found, the credentials could be encoded, the server answered with a
    success status and the body was a sequence of records; the products are
    then the normalised records, one for one and in the same order. *)
Theorem syncProducts_success_means_ok_response
    (w : WooCommerce.World) (products : list SyncedProduct) :
  WooCommerce.syncProducts w = Js.ok products ->
  exists response records,
    responds w response
    /\ WooCommerce.ok_status response = true
    /\ WooCommerce.json response = Js.ok (WooCommerce.ArrayOf records)
    /\ products = map WooCommerce.normalize records
    /\ length products = length records
    /\ map woo_id products = map wc_id records.
Proof.
  unfold WooCommerce.syncProducts, WooCommerce.syncProducts_try.
  destruct (WooCommerce.settings_query w) as [d e] eqn:Hq. simpl.
  destruct e as [e|]; [discriminate|].
  destruct d as [settings|]; [|discriminate].
  destruct (Js.btoa _) as [?|token] eqn:Htok; [discriminate|]. simpl.
  destruct (WooCommerce.fetch w _) as [?|response] eqn:Hfetch; [discriminate|]. simpl.
  destruct (WooCommerce.ok_status response) eqn:Hok; simpl.
  - destruct (WooCommerce.json response) as [?|payload] eqn:Hjson; [discriminate|].
    simpl. destruct payload as [|records]; [discriminate|].
    intros [= <-]. exists response, records.
    split; [by exists settings, token|].
    split; [done|]. split; [done|]. split; [done|].
    split; [apply length_map|].
    rewrite <- list_fmap_compose. reflexivity.
  - destruct (WooCommerce.text response); discriminate.
Qed.

Lemma syncProducts_success_means_ok_response_witness :
  exists response records,
    responds (Sample.listing [Sample.remote "15.50"]) response
    /\ WooCommerce.ok_status response = true
    /\ WooCommerce.json response = Js.ok (WooCommerce.ArrayOf records)
    /\ [WooCommerce.normalize (Sample.remote "15.50")]
       = map WooCommerce.normalize records
    /\ length [WooCommerce.normalize (Sample.remote "15.50")] = length records
    /\ map woo_id [WooCommerce.normalize (Sample.remote "15.50")]
       = map wc_id records.
Proof.
  apply (syncProducts_success_means_ok_response
           (Sample.listing [Sample.remote "15.50"])).
  reflexivity.
Defined.

(** X6: when the consumer key or secret holds a character outside Latin-1,
    the run fails with an [InvalidCharacterError] before any request is
    made: the outcome is the same whatever the server would answer. *)
Theorem unencodable_credentials_fail_before_fetch
    (w : WooCommerce.World) (settings : WooCommerce.Settings) :
  WooCommerce.settings_query w
  = {| Supabase.data := Some settings; Supabase.error := None |} ->
  Js.latin1 (WooCommerce.woocommerce_key settings ++ ":" ++
             WooCommerce.woocommerce_secret settings) = None ->
  exists message,
    WooCommerce.syncProducts w
    = Js.throw (Js.ErrorInstance "InvalidCharacterError" message)
    /\ forall fetch',
         WooCommerce.syncProducts
           {| WooCommerce.settings_query := WooCommerce.settings_query w;
              WooCommerce.fetch := fetch' |}
         = WooCommerce.syncProducts w.
Proof.
  intros Hq Hlatin. eexists.
  unfold WooCommerce.syncProducts, WooCommerce.syncProducts_try, Js.btoa. simpl.
  rewrite Hq. simpl. rewrite Hlatin. simpl. split; reflexivity.
Qed.

Lemma unencodable_credentials_fail_before_fetch_witness :
  exists message,
    WooCommerce.syncProducts
      {| WooCommerce.settings_query :=
           {| Supabase.data := Some Sample.euro_settings; Supabase.error := None |};
         WooCommerce.fetch := WooCommerce.fetch (Sample.listing []) |}
    = Js.throw (Js.ErrorInstance "InvalidCharacterError" message)
    /\ forall fetch',
         WooCommerce.syncProducts
           {| WooCommerce.settings_query :=
                {| Supabase.data := Some Sample.euro_settings; Supabase.error := None |};
              WooCommerce.fetch := fetch' |}
         = WooCommerce.syncProducts
             {| WooCommerce.settings_query :=
                  {| Supabase.data := Some Sample.euro_settings;
                     Supabase.error := None |};
                WooCommerce.fetch := WooCommerce.fetch (Sample.listing []) |}.
Proof.
  apply (unencodable_credentials_fail_before_fetch
           {| WooCommerce.settings_query :=
                {| Supabase.data := Some Sample.euro_settings; Supabase.error := None |};
              WooCommerce.fetch := WooCommerce.fetch (Sample.listing []) |}
           Sample.euro_settings).
  - reflexivity.
  - reflexivity.
Defined.

(** X7: a synchronisation that fails, because [syncProducts] throws or
    because the store refuses the upsert, leaves the table, the product list
    and the selection as they were, ends with the spinner off, and shows the
    message of the thrown [Error] (the generic sync message for a thrown
    value that is no [Error]). *)
Theorem failed_sync_changes_nothing
    (env : App.SyncEnv) (st : App.State) (t : CatalogStore.Table) (e : Js.Thrown) :
  App.hasSettings st = Some true ->
  WooCommerce.syncProducts (App.world env) = Js.throw e
  \/ (exists wooProducts,
        WooCommerce.syncProducts (App.world env) = Js.ok wooProducts
        /\ CatalogStore.rejects (App.backend env) t
             (App.upsert_payload (App.clock env) wooProducts) = Some e) ->
  let run := App.handleSync env st t in
  run.1.2 = t
  /\ App.products run.1.1 = App.products st
  /\ App.selectedProducts run.1.1 = App.selectedProducts st
  /\ App.syncing run.1.1 = false
  /\ App.error run.1.1
     = Some (match e with
             | Js.ErrorInstance _ message => message
             | Js.OtherValue _ => "Erro ao sincronizar produtos do WooCommerce."
             end).
Proof.
  intros Hset Hfail. cbv zeta. unfold App.handleSync. rewrite Hset.
  destruct Hfail as [Hsync|(ws & Hsync & Hrej)]; rewrite Hsync.
  - unfold Js.throw. cbv beta iota. simpl. by destruct e.
  - unfold Js.ok. cbv beta iota. unfold CatalogStore.upsert. rewrite Hrej.
    simpl. by destruct e.
Qed.

Lemma failed_sync_changes_nothing_witness :
  (App.handleSync (Sample.sync_env Sample.unreachable)
     (Sample.page {["p1"]} [Sample.loaded]) [Sample.stored_row]).1.2
  = [Sample.stored_row]
  /\ App.error
       (App.handleSync (Sample.sync_env Sample.unreachable)
          (Sample.page {["p1"]} [Sample.loaded]) [Sample.stored_row]).1.1
     = Some "Failed to fetch"
  /\ App.error
       (App.handleSync
          {| App.world := Sample.listing [Sample.remote "15.50"];
             App.clock := fun _ => "2025-01-22T13:43:37.000Z";
             App.backend := Sample.refusing |}
          (Sample.page {["p1"]} [Sample.loaded]) [Sample.stored_row]).1.1
     = Some "Erro ao sincronizar produtos do WooCommerce.".
Proof.
  destruct (failed_sync_changes_nothing (Sample.sync_env Sample.unreachable)
              (Sample.page {["p1"]} [Sample.loaded]) [Sample.stored_row]
              (Js.ErrorInstance "TypeError" "Failed to fetch") eq_refl
              (or_introl eq_refl)) as (Ht & _ & _ & _ & Herr).
  split; [exact Ht|]. split; [exact Herr|].
  apply (failed_sync_changes_nothing
           {| App.world := Sample.listing [Sample.remote "15.50"];
              App.clock := fun _ => "2025-01-22T13:43:37.000Z";
              App.backend := Sample.refusing |}
           (Sample.page {["p1"]} [Sample.loaded]) [Sample.stored_row]
           (Js.OtherValue "new row violates row-level security policy") eq_refl).
  right. exists [WooCommerce.normalize (Sample.remote "15.50")].
  split; reflexivity.
Defined.

(** X8: once the upsert has gone through, the page reloads the list: when the
    reload succeeds the page shows the rows the store returns and no error;
    when the reload fails the rows stay written, the page keeps the list it
    had and shows the load error.  Either way both spinners are off. *)
Theorem sync_then_reload
    (env : App.SyncEnv) (st : App.State) (t : CatalogStore.Table)
    (wooProducts : list SyncedProduct) :
  App.hasSettings st = Some true ->
  WooCommerce.syncProducts (App.world env) = Js.ok wooProducts ->
  CatalogStore.rejects (App.backend env) t
    (App.upsert_payload (App.clock env) wooProducts) = None ->
  let run := App.handleSync env st t in
  let reload := CatalogStore.select_all (App.backend env) run.1.2 in
  App.syncing run.1.1 = false
  /\ App.loading run.1.1 = false
  /\ App.selectedProducts run.1.1 = App.selectedProducts st
  /\ (Supabase.error reload = None ->
      App.products run.1.1 = default [] (Supabase.data reload)
      /\ App.error run.1.1 = None)
  /\ (is_Some (Supabase.error reload) ->
      App.products run.1.1 = App.products st
      /\ App.error run.1.1
         = Some "Não foi possível carregar os produtos. Por favor, verifique sua conexão com o Supabase."
      /\ run.1.2 = CatalogStore.upsert_rows "woo_id"
                     (CatalogStore.defaults (App.backend env))
                     (App.upsert_payload (App.clock env) wooProducts) t).
Proof.
  intros Hset Hsync Haccept. cbv zeta.
  unfold App.handleSync. rewrite Hset, Hsync. unfold Js.ok. cbv beta iota.
  unfold CatalogStore.upsert. rewrite Haccept. simpl.
  unfold App.fetchProducts.
  destruct (Supabase.error (CatalogStore.select_all _ _)) as [err|]; simpl.
  - split; [done|]. split; [done|]. split; [done|]. split; [discriminate|].
    intros _. done.
  - split; [done|]. split; [done|]. split; [done|]. split; [done|].
    intros [? [=]].
Qed.

Lemma sync_then_reload_witness :
  App.products
    (App.handleSync
       {| App.world := Sample.listing [Sample.remote "15.50"];
          App.clock := fun _ => "2025-01-22T13:43:37.000Z";
          App.backend := Sample.unreadable |}
       (Sample.page ∅ [Sample.loaded]) []).1.1
  = [Sample.loaded]
  /\ length
       (App.handleSync
          {| App.world := Sample.listing [Sample.remote "15.50"];
             App.clock := fun _ => "2025-01-22T13:43:37.000Z";
             App.backend := Sample.unreadable |}
          (Sample.page ∅ [Sample.loaded]) []).1.2 = 1%nat.
Proof.
  destruct (sync_then_reload
              {| App.world := Sample.listing [Sample.remote "15.50"];
                 App.clock := fun _ => "2025-01-22T13:43:37.000Z";
                 App.backend := Sample.unreadable |}
              (Sample.page ∅ [Sample.loaded]) []
              [WooCommerce.normalize (Sample.remote "15.50")]
              eq_refl eq_refl eq_refl) as (_ & _ & _ & _ & Hfail).
  destruct Hfail as (Hproducts & _ & Htable); [by eexists|].
  split; [exact Hproducts|]. rewrite Htable. reflexivity.
Defined.

(** ** Editing a catalog price *)

(** X9: a catalog price edit changes nothing but catalog prices: on the page
    the list keeps its length and order, every product keeps its id, store
    price, description and category, products with another id are untouched,
    and the selection stays; in the table every row keeps all its columns
    except [catalog_price], and rows with another id are untouched.  A
    failed update changes nothing at all. *)
Theorem price_edit_touches_catalog_price_only
    (updateError : option Supabase.PostgrestError) (productId : string)
    (newCatalogPrice : Js.number) (st : App.State) (t : CatalogStore.Table) :
  let run := App.handlePriceUpdate updateError productId newCatalogPrice st t in
  map pd_id (App.products run.1) = map pd_id (App.products st)
  /\ map pd_price (App.products run.1) = map pd_price (App.products st)
  /\ map pd_description (App.products run.1) = map pd_description (App.products st)
  /\ map pd_category (App.products run.1) = map pd_category (App.products st)
  /\ App.selectedProducts run.1 = App.selectedProducts st
  /\ (forall i product, App.products st !! i = Some product ->
        pd_id product <> productId -> App.products run.1 !! i = Some product)
  /\ length run.2 = length t
  /\ (forall i r, t !! i = Some r ->
        exists r', run.2 !! i = Some r'
                   /\ agree_outside ["catalog_price"] r r'
                   /\ (r !! "id" <> Some (Supabase.VStr productId) -> r' = r))
  /\ (is_Some updateError -> run = (st, t)).
Proof.
  cbv zeta. unfold App.handlePriceUpdate.
  destruct updateError as [e|]; simpl.
  - repeat (split; [done|]). split.
    + intros i r Hi. exists r. split; [done|]. split; [apply agree_outside_refl | done].
    + done.
  - assert (Hmap : forall {B} (f : ProductDetails -> B),
               (forall v p, f (App.set_catalog_price v p) = f p) ->
               map f (map (fun p => if decide (pd_id p = productId)
                                    then App.set_catalog_price newCatalogPrice p
                                    else p) (App.products st))
               = map f (App.products st)).
    { intros B f Hf. rewrite <- list_fmap_compose. apply list_fmap_ext.
      intros i p _. simpl. destruct (decide (pd_id p = productId)); [apply Hf | done]. }
    split; [by apply Hmap|]. split; [by apply Hmap|].
    split; [by apply Hmap|]. split; [by apply Hmap|].
    split; [done|]. split; [|split; [|split]].
    + intros i product Hi Hne. rewrite list_lookup_fmap, Hi. simpl.
      by rewrite decide_False.
    + unfold CatalogStore.update_eq_id. apply length_map.
    + intros i r Hi. unfold CatalogStore.update_eq_id.
      rewrite list_lookup_fmap, Hi. simpl.
      destruct (decide (r !! "id" = Some (Supabase.VStr productId))) as [Hid|Hid].
      * eexists. split; [done|]. split; [|done].
        intros c Hc. apply lookup_insert_ne. intros <-. apply Hc, list_elem_of_here.
      * exists r. split; [done|]. split; [apply agree_outside_refl | done].
    + intros [? [=]].
Qed.

Lemma price_edit_touches_catalog_price_only_witness :
  (App.handlePriceUpdate None "p1" (Js.of_decimal false 12 0)
     (Sample.page ∅ [Sample.loaded; Sample.bare])
     [Sample.fresh_row]).1.(App.products) !! 1%nat = Some Sample.bare
  /\ (exists r',
        (App.handlePriceUpdate None "p1" (Js.of_decimal false 12 0)
           (Sample.page ∅ [Sample.loaded; Sample.bare])
           [Sample.fresh_row]).2 !! 0%nat = Some r'
        /\ agree_outside ["catalog_price"] Sample.fresh_row r')
  /\ App.handlePriceUpdate
       (Some {| Supabase.message := "timeout"; Supabase.code := "57014" |})
       "p1" (Js.of_decimal false 12 0)
       (Sample.page ∅ [Sample.loaded]) [Sample.fresh_row]
     = (Sample.page ∅ [Sample.loaded], [Sample.fresh_row]).
Proof.
  destruct (price_edit_touches_catalog_price_only None "p1" (Js.of_decimal false 12 0)
              (Sample.page ∅ [Sample.loaded; Sample.bare]) [Sample.fresh_row])
    as (_ & _ & _ & _ & _ & Hother & _ & Hrows & _).
  split; [apply Hother; [reflexivity | discriminate]|].
  split.
  - destruct (Hrows 0%nat Sample.fresh_row eq_refl) as (r' & Hr' & Hagree & _).
    by exists r'.
  - apply (proj2 (proj2 (proj2 (proj2 (proj2 (proj2 (proj2 (proj2
             (price_edit_touches_catalog_price_only
                (Some {| Supabase.message := "timeout"; Supabase.code := "57014" |})
                "p1" (Js.of_decimal false 12 0)
                (Sample.page ∅ [Sample.loaded]) [Sample.fresh_row]))))))))).
    by eexists.
Defined.

(** X10: when the page shows the stored rows (row for row, same id and same
    catalog price), a successful edit to a price that JSON carries exactly (a
    finite number other than [-0]) keeps it so: the optimistic update of
    the page and the update of the table agree.  For any other value they
    part: the page holds the value as given, while the table gets [NULL] for
    [NaN] (as [parseFloat] gives for an emptied field) or an infinity, and
    [0] for [-0]. *)
Theorem price_edit_keeps_page_and_table_agreeing
    (productId : string) (newCatalogPrice : Js.number)
    (st : App.State) (t : CatalogStore.Table) :
  Forall2 shows t (App.products st) ->
  let run := App.handlePriceUpdate None productId newCatalogPrice st t in
  (carried_exactly newCatalogPrice -> Forall2 shows run.2 (App.products run.1))
  /\ (forall i r product,
        run.2 !! i = Some r -> App.products run.1 !! i = Some product ->
        pd_id product = productId ->
        pd_catalog_price product = Some newCatalogPrice
        /\ (~ finite newCatalogPrice -> r !! "catalog_price" = Some Supabase.VNull)
        /\ (newCatalogPrice = negative_zero ->
            r !! "catalog_price" = Some (Supabase.VNum (S754_zero false)))
        /\ (~ carried_exactly newCatalogPrice -> ~ shows r product)).
Proof.
  intros Hshows. cbv zeta. unfold App.handlePriceUpdate. simpl.
  unfold CatalogStore.update_eq_id. split.
  - intros Hfin. apply Forall2_fmap. eapply Forall2_impl; [exact Hshows|].
    intros r p [Hid Hcat]. simpl.
    destruct (decide (pd_id p = productId)) as [Hp|Hp].
    + rewrite decide_True by (by rewrite Hid, Hp).
      split; simpl.
      * by rewrite lookup_insert_ne.
      * rewrite lookup_insert_eq. f_equal.
        by destruct newCatalogPrice as [[|]| | |].
    + rewrite decide_False by (rewrite Hid; intros [= ?]; done).
      by split.
  - intros i r product Hr Hp Hpid.
    rewrite list_lookup_fmap in Hr. rewrite list_lookup_fmap in Hp.
    destruct (t !! i) as [r0|] eqn:Hr0; [|discriminate].
    destruct (App.products st !! i) as [p0|] eqn:Hp0; [|discriminate].
    simpl in Hr, Hp.
    destruct (Forall2_lookup_lr _ _ _ _ _ _ Hshows Hr0 Hp0) as [Hid Hcat].
    destruct (decide (pd_id p0 = productId)) as [Hp0id|Hp0id].
    + rewrite decide_True in Hr by (by rewrite Hid, Hp0id).
      injection Hr as <-. injection Hp as <-. split; [done|].
      split; [|split].
      * intros Hnot. rewrite lookup_insert_eq. f_equal.
        destruct newCatalogPrice; simpl in *; try done; exfalso; by apply Hnot.
      * intros ->. by rewrite lookup_insert_eq.
      * intros Hnot [_ Hcat']. simpl in Hcat'.
        rewrite lookup_insert_eq in Hcat'. apply Hnot.
        by destruct newCatalogPrice as [[|]| | |].
    + injection Hp as <-. done.
Qed.

Lemma price_edit_keeps_page_and_table_agreeing_witness :
  Forall2 shows
    (App.handlePriceUpdate None "p1" (Js.of_decimal false 155 (-1))
       (Sample.page ∅ [Sample.loaded]) [Sample.loaded_row]).2
    (App.products
       (App.handlePriceUpdate None "p1" (Js.of_decimal false 155 (-1))
          (Sample.page ∅ [Sample.loaded]) [Sample.loaded_row]).1)
  /\ (forall i r product,
        (App.handlePriceUpdate None "p1" (Js.parseFloat "-0")
           (Sample.page ∅ [Sample.loaded]) [Sample.loaded_row]).2 !! i = Some r ->
        App.products
          (App.handlePriceUpdate None "p1" (Js.parseFloat "-0")
             (Sample.page ∅ [Sample.loaded]) [Sample.loaded_row]).1 !! i
        = Some product ->
        pd_id product = "p1" ->
        r !! "catalog_price" = Some (Supabase.VNum (S754_zero false))
        /\ pd_catalog_price product = Some (S754_zero true)).
Proof.
  assert (Hshows : Forall2 shows [Sample.loaded_row]
                     (App.products (Sample.page ∅ [Sample.loaded]))).
  { constructor; [|constructor]. split; reflexivity. }
  split.
  - apply (proj1 (price_edit_keeps_page_and_table_agreeing "p1"
                    (Js.of_decimal false 155 (-1))
                    (Sample.page ∅ [Sample.loaded]) [Sample.loaded_row] Hshows)).
    exact I.
  - intros i r product Hr Hp Hid.
    destruct (proj2 (price_edit_keeps_page_and_table_agreeing "p1" (Js.parseFloat "-0")
                       (Sample.page ∅ [Sample.loaded]) [Sample.loaded_row] Hshows)
                i r product Hr Hp Hid) as (Hpage & _ & Hzero & _).
    split; [apply Hzero; reflexivity | exact Hpage].
Defined.

(** ** The request *)

(** X11: the base URL the request is built on always ends with a slash, and
    making it so is idempotent: a store URL and its base URL give the same
    endpoint, which is the base URL followed by the products path. *)
Theorem base_url_ends_with_slash (url : string) :
  Js.endsWith (WooCommerce.baseUrl url) "/" = true
  /\ WooCommerce.baseUrl (WooCommerce.baseUrl url) = WooCommerce.baseUrl url
  /\ WooCommerce.apiUrl (WooCommerce.baseUrl url) = WooCommerce.apiUrl url
  /\ forall key secret token,
       WooCommerce.url
         (WooCommerce.request_for
            {| WooCommerce.woocommerce_url := url;
               WooCommerce.woocommerce_key := key;
               WooCommerce.woocommerce_secret := secret |} token)
       = WooCommerce.baseUrl url ++ "wp-json/wc/v3/products?per_page=100".
Proof.
  assert (Hend : Js.endsWith (WooCommerce.baseUrl url) "/" = true).
  { unfold WooCommerce.baseUrl. destruct (Js.endsWith url "/") eqn:H; [done|].
    apply (endsWith_app_char url "/"). }
  assert (Hidem : WooCommerce.baseUrl (WooCommerce.baseUrl url) = WooCommerce.baseUrl url).
  { unfold WooCommerce.baseUrl at 1. by rewrite Hend. }
  split; [done|]. split; [done|]. split.
  - unfold WooCommerce.apiUrl. by rewrite Hidem.
  - intros key secret token. reflexivity.
Qed.

(** ** The cells of the product table *)

Section Markup.
Import Js Display.

Lemma contains_gt_strip_from inside s :
  contains_gt s = false -> contains_gt (strip_from inside s) = false.
Proof.
  revert inside. induction s as [|c rest IH]; intros inside H; [done|].
  simpl in H. apply orb_false_iff in H as [Hc Hrest].
  simpl. destruct inside.
  - rewrite Hc. by apply IH.
  - rewrite Hrest, andb_false_r. simpl. rewrite Hc. simpl. by apply IH.
Qed.

Lemma has_tag_strip_from inside s : has_tag (strip_from inside s) = false.
Proof.
  revert inside. induction s as [|c rest IH]; intros inside; [done|].
  simpl. destruct inside.
  - destruct (Ascii.eqb c ">"); apply IH.
  - destruct (Ascii.eqb c "<" && contains_gt rest) eqn:Hopen; [apply IH|].
    simpl. rewrite IH, orb_false_r.
    apply andb_false_iff in Hopen as [Hc|Hgt]; [by rewrite Hc|].
    by rewrite (contains_gt_strip_from false rest Hgt), andb_false_r.
Qed.

Lemma strip_from_no_tag s : has_tag s = false -> strip_from false s = s.
Proof.
  induction s as [|c rest IH]; [done|].
  simpl. intros H. apply orb_false_iff in H as [Hopen Hrest].
  rewrite Hopen. by rewrite IH.
Qed.

Lemma length_strip_from inside s :
  (String.length (strip_from inside s) <= String.length s)%nat.
Proof.
  revert inside. induction s as [|c rest IH]; intros inside; [done|].
  simpl. destruct inside.
  - destruct (Ascii.eqb c ">"); [specialize (IH false) | specialize (IH true)]; lia.
  - destruct (Ascii.eqb c "<" && contains_gt rest);
      [specialize (IH true) | specialize (IH false)]; simpl; lia.
Qed.

Lemma prefix_nil_r sep : sep <> "" -> String.prefix sep "" = false.
Proof. by destruct sep. Qed.

Lemma prefix_cons_inv a sep c s :
  String.prefix (String a sep) (String c s) = true -> a = c /\ String.prefix sep s = true.
Proof.
  simpl. destruct (ascii_dec a c) as [->|]; [done | discriminate].
Qed.

Lemma split_head_cons sep c rest :
  split_head sep (String c rest)
  = if String.prefix sep (String c rest) then "" else String c (split_head sep rest).
Proof. reflexivity. Qed.

Lemma includes_cons c rest sub :
  includes (String c rest) sub = String.prefix sub (String c rest) || includes rest sub.
Proof. reflexivity. Qed.

(** A prefix of the kept head is a prefix of the whole text. *)
Lemma prefix_split_head sep' sep s :
  String.prefix sep' (split_head sep s) = true -> String.prefix sep' s = true.
Proof.
  revert sep'. induction s as [|c rest IH]; intros sep' H; [done|].
  rewrite split_head_cons in H.
  destruct (String.prefix sep (String c rest)) eqn:Hsep.
  - destruct sep'; [done | discriminate H].
  - destruct sep' as [|a sep']; [done|].
    apply prefix_cons_inv in H as [-> H]. simpl.
    destruct (ascii_dec c c); [by apply IH | done].
Qed.

Lemma includes_split_head sep s :
  sep <> "" -> includes (split_head sep s) sep = false.
Proof.
  intros Hsep. induction s as [|c rest IH].
  - by apply prefix_nil_r.
  - rewrite split_head_cons.
    destruct (String.prefix sep (String c rest)) eqn:Hpre.
    + by apply prefix_nil_r.
    + rewrite includes_cons, IH, orb_false_r.
      destruct (String.prefix sep (String c (split_head sep rest))) eqn:H; [|done].
      assert (Hwhole : String.prefix sep (split_head sep (String c rest)) = true).
      { by rewrite split_head_cons, Hpre. }
      apply prefix_split_head in Hwhole. congruence.
Qed.

Lemma prefix_append sep rest : String.prefix sep (sep ++ rest) = true.
Proof.
  induction sep as [|a sep IH]; [by destruct rest|].
  rewrite append_cons. simpl. destruct (ascii_dec a a); [exact IH | done].
Qed.

Lemma prefix_true_append sep s :
  String.prefix sep s = true -> exists rest, s = sep ++ rest.
Proof.
  revert s. induction sep as [|a sep IH]; intros s H.
  - by exists s.
  - destruct s as [|c s]; [discriminate|].
    apply prefix_cons_inv in H as [-> H].
    destruct (IH s H) as [rest ->]. by exists rest.
Qed.

Lemma split_head_cases sep s :
  (split_head sep s = s /\ includes s sep = false /\ sep <> "")
  \/ sep = ""
  \/ exists rest, s = split_head sep s ++ sep ++ rest.
Proof.
  destruct sep as [|a sep]; [right; by left|].
  induction s as [|c rest IH].
  - left. done.
  - rewrite split_head_cons.
    destruct (String.prefix (String a sep) (String c rest)) eqn:Hpre.
    + right; right. apply prefix_true_append in Hpre as [tail Htail].
      exists tail. exact Htail.
    + destruct IH as [(Heq & Hno & _)|[Habs|[tail Htail]]]; [|discriminate|].
      * left. rewrite Heq. split; [done|]. split; [|done].
        by rewrite includes_cons, Hpre, Hno.
      * right; right. exists tail. rewrite append_cons. by rewrite <- Htail.
Qed.

End Markup.

(** X12: the markup stripping of the title and description cells leaves no
    tag behind (no [<] with a [>] after it), returns a text without tags
    unchanged, never lengthens the text, and stripping twice is stripping
    once. *)
Theorem strip_markup_removes_every_tag (s : string) :
  Display.has_tag (Display.strip_markup s) = false
  /\ (Display.has_tag s = false -> Display.strip_markup s = s)
  /\ Display.strip_markup (Display.strip_markup s) = Display.strip_markup s
  /\ (String.length (Display.strip_markup s) <= String.length s)%nat.
Proof.
  unfold Display.strip_markup.
  split; [apply has_tag_strip_from|]. split; [apply strip_from_no_tag|].
  split; [apply strip_from_no_tag, has_tag_strip_from | apply length_strip_from].
Qed.

Lemma strip_markup_removes_every_tag_witness :
  Display.strip_markup "3 < 4" = "3 < 4"
  /\ Display.strip_markup "<p>Widget <b>blue</b></p>" = "Widget blue".
Proof.
  split.
  - apply (proj1 (proj2 (strip_markup_removes_every_tag "3 < 4"))). reflexivity.
  - reflexivity.
Defined.

(** X13: the title cell shows the description up to its first " - " with
    the markup stripped.  The text taken is a prefix of the description that
    holds no " - "; it is the whole description when that has no " - ", and
    otherwise the description is that text, " - ", and a remainder. *)
Theorem title_is_text_before_separator (product : ProductDetails) (description : string) :
  pd_description product = Some description ->
  let head := Js.split_head " - " description in
  Display.title_cell product = Some (Display.strip_markup head)
  /\ String.prefix head description = true
  /\ Js.includes head " - " = false
  /\ ((head = description /\ Js.includes description " - " = false)
      \/ exists rest, description = head ++ " - " ++ rest).
Proof.
  intros Hd. cbv zeta. unfold Display.title_cell. rewrite Hd. simpl.
  split; [done|]. split; [|split].
  - assert (H : forall s, String.prefix (Js.split_head " - " s) s = true).
    { induction s as [|c rest IH]; [done|]. rewrite split_head_cons.
      destruct (String.prefix " - " (String c rest)); [done|].
      simpl. destruct (ascii_dec c c); [exact IH | done]. }
    apply H.
  - by apply includes_split_head.
  - destruct (split_head_cases " - " description) as [(H1 & H2 & _)|[H|H]];
      [left; by split | discriminate H | by right].
Qed.

Lemma title_is_text_before_separator_witness :
  Display.title_cell
    {| pd_id := "p3"; pd_woo_id := 9;
       pd_description := Some "<b>Widget</b> - blue - large";
       pd_image_url := None; pd_category := None; pd_is_active := true;
       pd_price := Js.zero; pd_catalog_price := None |}
  = Some "Widget".
Proof.
  destruct (title_is_text_before_separator
              {| pd_id := "p3"; pd_woo_id := 9;
                 pd_description := Some "<b>Widget</b> - blue - large";
                 pd_image_url := None; pd_category := None; pd_is_active := true;
                 pd_price := Js.zero; pd_catalog_price := None |}
              "<b>Widget</b> - blue - large" eq_refl) as (Htitle & _).
  rewrite Htitle. reflexivity.
Defined.

(** ** Searching the list *)

Section SearchProperties.
Import Js App.

Lemma includes_empty s : includes s "" = true.
Proof. by destruct s. Qed.

End SearchProperties.

(** X14: a product with neither description nor category is never listed,
    whatever is typed in the search box; and with an empty search box (the
    host lower-casing the empty text to itself) the list shows exactly the
    loaded products that have a description or a category, in their
    order. *)
Theorem search_lists_described_products
    (toLowerCase : string -> string) (st : App.State) :
  (forall product, product ∈ App.filteredProducts toLowerCase st ->
     product ∈ App.products st
     /\ (is_Some (pd_description product) \/ is_Some (pd_category product)))
  /\ (toLowerCase "" = "" -> App.searchTerm st = "" ->
      App.filteredProducts toLowerCase st
      = filter (fun product => is_Some (pd_description product)
                               \/ is_Some (pd_category product))
               (App.products st)).
Proof.
  unfold App.filteredProducts, App.field_matches. split.
  - intros product Hin. apply list_elem_of_filter in Hin as [Hmatch Hin].
    split; [done|].
    destruct (pd_description product); [left; by eexists|].
    destruct (pd_category product); [right; by eexists|].
    done.
  - intros Hlow ->. rewrite Hlow. apply list_filter_iff. intros product.
    destruct (pd_description product) as [d|], (pd_category product) as [c|];
      rewrite ?includes_empty; simpl; split; intros H; try done.
    + left; by eexists.
    + left; by eexists.
    + right; by eexists.
    + destruct H as [[? [=]]|[? [=]]].
Qed.

Lemma search_lists_described_products_witness :
  App.filteredProducts lower_ascii (Sample.page ∅ [Sample.loaded; Sample.bare])
  = filter (fun product => is_Some (pd_description product)
                           \/ is_Some (pd_category product))
           [Sample.loaded; Sample.bare]
  /\ App.filteredProducts lower_ascii (Sample.page ∅ [Sample.loaded; Sample.bare])
     = [Sample.loaded].
Proof.
  split.
  - apply (proj2 (search_lists_described_products lower_ascii
                    (Sample.page ∅ [Sample.loaded; Sample.bare]))); reflexivity.
  - reflexivity.
Defined.

(** ** From the page to the PDF *)

Section PdfExport.
Import Js App.

Lemma opt_or_opt_or_null o d : opt_or (opt_or_null o) d = opt_or o d.
Proof. by destruct o as [[|a r]|]. Qed.

Lemma generatePDF_cases env st :
  (generatePDF env st).2 = []
  \/ exists companyInfo,
       Supabase.data (company_settings_query env) = Some companyInfo
       /\ Supabase.error (company_settings_query env) = None
       /\ size (selectedProducts st) <> 0%nat
       /\ generatePDF env st
          = (st,
             [ Rendered (map renderer_argument (selectedProductList st)) companyInfo;
               Downloaded "catalogo-produtos.pdf"
                 (Pdf.render (host env) (today env)
                    (map renderer_argument (selectedProductList st)) companyInfo) ]).
Proof.
  unfold generatePDF.
  destruct (decide (size (selectedProducts st) = 0%nat)); [by left|].
  destruct (Supabase.error (company_settings_query env)); [by left|].
  destruct (Supabase.data (company_settings_query env)) as [c|]; [|by left].
  right. by exists c.
Qed.

End PdfExport.

(** X15: every row of the exported table comes from a selected loaded
    product, one row each and in the order of the page: the description (or
    "Sem nome" when there is none or it is empty), the category (or "-"),
    and "R$ " with the store price fixed to two decimals. *)
Theorem exported_rows_follow_the_page
    (env : App.PdfEnv) (st : App.State) (filename : string) (blob : Pdf.Blob) :
  App.Downloaded filename blob ∈ (App.generatePDF env st).2 ->
  exists options,
    blob !! 4%nat = Some (Pdf.AutoTable options)
    /\ Pdf.body options
       = map (fun product =>
                [ Js.opt_or (pd_description product) "Sem nome";
                  Js.opt_or (pd_category product) "-";
                  "R$ " ++ Js.toFixed (Pdf.toString_large (App.host env)) 2
                             (pd_price product) ])
             (filter (fun product => pd_id product ∈ App.selectedProducts st)
                     (App.products st)).
Proof.
  intros Hin.
  destruct (generatePDF_cases env st) as [Hnil|(c & _ & _ & _ & Hrun)].
  - rewrite Hnil in Hin. by apply elem_of_nil in Hin.
  - rewrite Hrun in Hin. simpl in Hin.
    rewrite !elem_of_cons, elem_of_nil in Hin.
    destruct Hin as [H|[H|[]]]; [discriminate H|].
    injection H as -> ->. rewrite render_shape. unfold document_top.
    eexists. split; [reflexivity|]. simpl Pdf.body.
    rewrite <- list_fmap_compose. apply list_fmap_ext.
    intros i product _. unfold Pdf.table_row, App.renderer_argument. simpl.
    by rewrite opt_or_opt_or_null.
Qed.

Lemma exported_rows_follow_the_page_witness :
  exists blob options,
    App.Downloaded "catalogo-produtos.pdf" blob
      ∈ (App.generatePDF Sample.pdf_env
           (Sample.page {["p2"]} [Sample.loaded; Sample.bare])).2
    /\ blob !! 4%nat = Some (Pdf.AutoTable options)
    /\ Pdf.body options = [["Sem nome"; "-"; "R$ 5.00"]].
Proof.
  eexists.
  assert (Hin : App.Downloaded "catalogo-produtos.pdf"
                  (Pdf.render Sample.a4 Sample.day1
                     [App.renderer_argument Sample.bare] Sample.acme)
                ∈ (App.generatePDF Sample.pdf_env
                     (Sample.page {["p2"]} [Sample.loaded; Sample.bare])).2).
  { vm_compute. apply list_elem_of_further, list_elem_of_here. }
  destruct (exported_rows_follow_the_page _ _ _ _ Hin) as (options & Hop & Hbody).
  exists options. split; [exact Hin|]. split; [exact Hop|].
  rewrite Hbody. reflexivity.
Defined.

(** X16: whenever [generatePDF] starts a download, the file is named
    "catalogo-produtos.pdf", at least one product is selected, the company
    settings were loaded without error, the renderer was called once, just
    before, with these settings, and what is downloaded is exactly what that
    call returned.  And when products are selected but the settings query
    fails or finds no row, nothing is rendered or downloaded and the message
    about the company settings is shown. *)
Theorem export_downloads_what_was_rendered (env : App.PdfEnv) (st : App.State) :
  (forall filename blob,
     App.Downloaded filename blob ∈ (App.generatePDF env st).2 ->
     filename = "catalogo-produtos.pdf"
     /\ size (App.selectedProducts st) <> 0%nat
     /\ Supabase.error (App.company_settings_query env) = None
     /\ exists products companyInfo,
          Supabase.data (App.company_settings_query env) = Some companyInfo
          /\ (App.generatePDF env st).2
             = [ App.Rendered products companyInfo; App.Downloaded filename blob ]
          /\ blob = Pdf.render (App.host env) (App.today env) products companyInfo)
  /\ (size (App.selectedProducts st) <> 0%nat ->
      Supabase.error (App.company_settings_query env) <> None
      \/ Supabase.data (App.company_settings_query env) = None ->
      App.generatePDF env st
      = (App.setError
           (Some "Não foi possível carregar as configurações da empresa para gerar o PDF.")
           st, [])).
Proof.
  split.
  - intros filename blob Hin.
    destruct (generatePDF_cases env st) as [Hnil|(c & Hdata & Herr & Hsize & Hrun)].
    + rewrite Hnil in Hin. by apply elem_of_nil in Hin.
    + rewrite Hrun in Hin |- *. simpl in Hin |- *.
      rewrite !elem_of_cons, elem_of_nil in Hin.
      destruct Hin as [H|[H|[]]]; [discriminate H|].
      injection H as -> ->.
      split; [done|]. split; [done|]. split; [done|].
      by eexists _, c.
  - intros Hsize Hfail. unfold App.generatePDF.
    rewrite decide_False by done.
    destruct (Supabase.error (App.company_settings_query env)); [done|].
    destruct (Supabase.data (App.company_settings_query env)); [|done].
    by destruct Hfail.
Qed.

Lemma export_downloads_what_was_rendered_witness :
  App.Downloaded "catalogo-produtos.pdf"
    (Pdf.render Sample.a4 Sample.day1 [App.renderer_argument Sample.loaded] Sample.acme)
    ∈ (App.generatePDF Sample.pdf_env (Sample.page {["p1"]} [Sample.loaded])).2
  /\ size (App.selectedProducts (Sample.page {["p1"]} [Sample.loaded])) <> 0%nat
  /\ Supabase.error (App.company_settings_query Sample.pdf_env) = None.
Proof.
  assert (Hin : App.Downloaded "catalogo-produtos.pdf"
                  (Pdf.render Sample.a4 Sample.day1
                     [App.renderer_argument Sample.loaded] Sample.acme)
                ∈ (App.generatePDF Sample.pdf_env
                     (Sample.page {["p1"]} [Sample.loaded])).2).
  { vm_compute. apply list_elem_of_further, list_elem_of_here. }
  destruct (proj1 (export_downloads_what_was_rendered Sample.pdf_env
                     (Sample.page {["p1"]} [Sample.loaded])) _ _ Hin)
    as (_ & Hsize & Herr & _).
  split; [exact Hin|]. split; [exact Hsize | exact Herr].
Defined.

(** X17: the export does not look at the search box: every loaded product
    that is selected is handed to the renderer, also when the current search
    hides it from the list, and typing in the search box changes nothing of
    what is exported. *)
Theorem hidden_selected_rows_are_exported
    (env : App.PdfEnv) (st : App.State)
    (products : list Pdf.Product) (companyInfo : Pdf.CompanyInfo)
    (product : ProductDetails) :
  App.Rendered products companyInfo ∈ (App.generatePDF env st).2 ->
  product ∈ App.products st ->
  pd_id product ∈ App.selectedProducts st ->
  App.renderer_argument product ∈ products
  /\ forall term,
       (App.generatePDF env (App.setSearchTerm term st)).2 = (App.generatePDF env st).2.
Proof.
  intros Hin Hp Hsel. split.
  - destruct (generatePDF_rendered env st products companyInfo Hin) as [_ ->].
    apply list_elem_of_fmap. exists product. split; [done|].
    unfold App.selectedProductList. apply list_elem_of_filter. by split.
  - intros term. unfold App.generatePDF. simpl.
    destruct (decide (size (App.selectedProducts st) = 0%nat)); [done|].
    destruct (Supabase.error (App.company_settings_query env)); [done|].
    by destruct (Supabase.data (App.company_settings_query env)).
Qed.

Lemma hidden_selected_rows_are_exported_witness :
  (Sample.bare ∉ App.filteredProducts lower_ascii
                   (Sample.page {["p2"]} [Sample.loaded; Sample.bare]))
  /\ App.renderer_argument Sample.bare ∈ [App.renderer_argument Sample.bare].
Proof.
  split.
  - intros H. vm_compute in H. apply list_elem_of_singleton in H. discriminate H.
  - assert (Hin : App.Rendered [App.renderer_argument Sample.bare] Sample.acme
                  ∈ (App.generatePDF Sample.pdf_env
                       (Sample.page {["p2"]} [Sample.loaded; Sample.bare])).2).
    { vm_compute. apply list_elem_of_here. }
    assert (Hp : Sample.bare
                 ∈ App.products (Sample.page {["p2"]} [Sample.loaded; Sample.bare])).
    { apply list_elem_of_further, list_elem_of_here. }
    assert (Hsel : pd_id Sample.bare
                   ∈ App.selectedProducts
                       (Sample.page {["p2"]} [Sample.loaded; Sample.bare])).
    { change ("p2" ∈ ({["p2"]} : gset string)).
      apply elem_of_singleton_2. reflexivity. }
    exact (proj1 (hidden_selected_rows_are_exported Sample.pdf_env
                    (Sample.page {["p2"]} [Sample.loaded; Sample.bare])
                    [App.renderer_argument Sample.bare] Sample.acme Sample.bare
                    Hin Hp Hsel)).
Defined.

(** ** What a normalised record and its row carry *)

(** [list[0]?.field || null]. *)
Lemma first_or_null {A} (f : A -> string) (l : list A) :
  (forall v, Js.opt_or_null (f <$> head l) = Some v
             <-> v <> "" /\ exists x rest, l = x :: rest /\ f x = v)
  /\ (Js.opt_or_null (f <$> head l) = None
      <-> l = [] \/ exists x rest, l = x :: rest /\ f x = "").
Proof.
  destruct l as [|x rest]; simpl.
  - split.
    + intros v. split; [discriminate | by intros (_ & ? & ? & [=] & _)].
    + split; [by left | done].
  - unfold Js.opt_or_null. simpl. destruct (f x) as [|a r] eqn:Hf; simpl.
    + split.
      * intros v. split; [discriminate|].
        intros (Hv & y & rest' & [= <- <-] & Hy). congruence.
      * split; [|done]. intros _. right. by exists x, rest.
    + split.
      * intros v. split.
        -- intros [= <-]. split; [done|]. by exists x, rest.
        -- intros (_ & y & rest' & [= <- <-] & Hy). congruence.
      * split; [discriminate|].
        intros [[=]|(y & rest' & [= <- <-] & Hy)]. congruence.
Qed.

(** X18: normalisation keeps the id, the name and the description of the
    remote record; the product is active exactly when the remote status is
    "publish"; the image URL is the [src] of the first image when that is a
    non-empty text and [null] otherwise (no image, or an empty [src]), and
    likewise the category is the name of the first category. *)
Theorem normalize_fields (product : WooCommerceProduct) :
  let normalized := WooCommerce.normalize product in
  woo_id normalized = wc_id product
  /\ name normalized = wc_name product
  /\ description normalized = wc_description product
  /\ (is_active normalized = true <-> wc_status product = "publish")
  /\ (forall url, image_url normalized = Some url
        <-> url <> "" /\ exists first rest,
              wc_images product = first :: rest /\ src first = url)
  /\ (image_url normalized = None
      <-> wc_images product = []
          \/ exists first rest, wc_images product = first :: rest /\ src first = "")
  /\ (forall c, category normalized = Some c
        <-> c <> "" /\ exists first rest,
              wc_categories product = first :: rest /\ cat_name first = c)
  /\ (category normalized = None
      <-> wc_categories product = []
          \/ exists first rest,
               wc_categories product = first :: rest /\ cat_name first = "").
Proof.
  cbv zeta. unfold WooCommerce.normalize. simpl.
  split; [done|]. split; [done|]. split; [done|].
  split; [apply bool_decide_eq_true|].
  destruct (first_or_null src (wc_images product)) as [Hi1 Hi2].
  destruct (first_or_null cat_name (wc_categories product)) as [Hc1 Hc2].
  done.
Qed.

(** X19: the rows [handleSync] sends: one per product [syncProducts]
    returned, in the same order, each carrying exactly the eight columns
    woo_id, name, price, description, image_url, category, is_active and
    updated_at; the key is the remote id, the timestamp is the clock as read
    for that row; the price is sent as it is when it is finite and not
    [-0], as [0] when it is [-0], and as [null] when JSON cannot carry it
    ([NaN] or an infinity). *)
Theorem upsert_payload_shape (clock : nat -> string) (wooProducts : list SyncedProduct)
    (j : nat) (product : SyncedProduct) :
  wooProducts !! j = Some product ->
  length (App.upsert_payload clock wooProducts) = length wooProducts
  /\ exists p,
       App.upsert_payload clock wooProducts !! j = Some p
       /\ (forall c, is_Some (p !! c) <-> c ∈ App.payload_columns)
       /\ p !! "woo_id" = Some (Supabase.VInt (woo_id product))
       /\ p !! "updated_at" = Some (Supabase.VStr (clock j))
       /\ (carried_exactly (price product) ->
           p !! "price" = Some (Supabase.VNum (price product)))
       /\ (price product = negative_zero ->
           p !! "price" = Some (Supabase.VNum (S754_zero false)))
       /\ (~ finite (price product) -> p !! "price" = Some Supabase.VNull).
Proof.
  intros Hj. split; [apply length_imap|].
  eexists. split.
  { unfold App.upsert_payload. rewrite list_lookup_imap, Hj. reflexivity. }
  split; [|split; [reflexivity|split; [reflexivity|split; [|split]]]].
  - intros c. split.
    + intros Hsome. destruct (decide (c ∈ App.payload_columns)) as [|Hout]; [done|].
      rewrite (spread_within product (clock j) c Hout) in Hsome.
      by destruct Hsome.
    + unfold App.payload_columns. rewrite !elem_of_cons, elem_of_nil.
      intros [->|[->|[->|[->|[->|[->|[->|[->|[]]]]]]]]]; by eexists.
  - intros Hfin. destruct (price product) as [[|]| | |] eqn:Hp; try done;
      unfold App.spread; rewrite Hp; reflexivity.
  - intros Hp. unfold App.spread; rewrite Hp; reflexivity.
  - intros Hnot. destruct (price product) eqn:Hp;
      try (exfalso; by apply Hnot);
      unfold App.spread; rewrite Hp; reflexivity.
Qed.

Lemma upsert_payload_shape_witness :
  (exists p,
     App.upsert_payload (fun _ => "2025-01-22T13:43:37.000Z")
       [WooCommerce.normalize (Sample.remote "abc")] !! 0%nat = Some p
     /\ p !! "woo_id" = Some (Supabase.VInt 7)
     /\ p !! "price" = Some Supabase.VNull)
  /\ (exists p,
        App.upsert_payload (fun _ => "2025-01-22T13:43:37.000Z")
          [WooCommerce.normalize (Sample.remote "-0")] !! 0%nat = Some p
        /\ p !! "price" = Some (Supabase.VNum (S754_zero false))).
Proof.
  split.
  - destruct (upsert_payload_shape (fun _ => "2025-01-22T13:43:37.000Z")
                [WooCommerce.normalize (Sample.remote "abc")] 0
                (WooCommerce.normalize (Sample.remote "abc")) eq_refl)
      as (_ & p & Hp & _ & Hkey & _ & _ & _ & Hnull).
    exists p. split; [exact Hp|]. split; [exact Hkey|].
    apply Hnull. intros H. exact H.
  - destruct (upsert_payload_shape (fun _ => "2025-01-22T13:43:37.000Z")
                [WooCommerce.normalize (Sample.remote "-0")] 0
                (WooCommerce.normalize (Sample.remote "-0")) eq_refl)
      as (_ & p & Hp & _ & _ & _ & _ & Hzero & _).
    exists p. split; [exact Hp|]. apply Hzero. reflexivity.
Defined.

(** ** What a synchronisation overwrites *)

Section UpsertOverwrite.
Import Js Supabase CatalogStore.

Lemma upsert_row_other key dflt p t i r :
  t !! i = Some r -> r !! key <> p !! key -> upsert_row key dflt p t !! i = Some r.
Proof.
  revert i. induction t as [|r0 t IH]; intros i Hi Hne; [done|].
  simpl. destruct (decide (r0 !! key = p !! key)) as [Heq|Hneq].
  - destruct i as [|i]; simpl in *; [|done]. injection Hi as ->. done.
  - destruct i as [|i]; simpl in *; [done|]. by apply IH.
Qed.

Lemma upsert_row_key key dflt p t i r :
  t !! i = Some r ->
  exists r', upsert_row key dflt p t !! i = Some r' /\ r' !! key = r !! key.
Proof.
  revert i. induction t as [|r0 t IH]; intros i Hi; [done|].
  simpl. destruct (decide (r0 !! key = p !! key)) as [Heq|Hneq].
  - destruct i as [|i]; simpl in *; [|by exists r].
    injection Hi as <-. eexists. split; [done|].
    rewrite lookup_union. rewrite Heq. by destruct (p !! key).
  - destruct i as [|i]; simpl in *; [by exists r | by apply IH].
Qed.

Lemma upsert_row_first key dflt p t i r :
  t !! i = Some r ->
  r !! key = p !! key ->
  (forall i' r', (i' < i)%nat -> t !! i' = Some r' -> r' !! key <> p !! key) ->
  upsert_row key dflt p t !! i = Some (p ∪ r).
Proof.
  revert i. induction t as [|r0 t IH]; intros i Hi Heq Hfirst; [done|].
  simpl. destruct i as [|i]; simpl in *.
  - injection Hi as ->. by rewrite decide_True.
  - rewrite decide_False by (apply (Hfirst 0%nat r0); [lia | done]).
    simpl. apply IH; [done | done |].
    intros i' r' Hlt Hr'. apply (Hfirst (S i') r'); [lia | done].
Qed.

Lemma upsert_rows_key key dflt ps t i r :
  t !! i = Some r ->
  exists r', upsert_rows key dflt ps t !! i = Some r' /\ r' !! key = r !! key.
Proof.
  unfold upsert_rows. revert t r. induction ps as [|p ps IH]; intros t r Hi; simpl.
  - by exists r.
  - destruct (upsert_row_key key dflt p t i r Hi) as (r1 & Hr1 & Hk1).
    destruct (IH _ _ Hr1) as (r2 & Hr2 & Hk2).
    exists r2. split; [done | congruence].
Qed.

Lemma upsert_rows_other key dflt ps t i r :
  t !! i = Some r ->
  Forall (fun p => r !! key <> p !! key) ps ->
  upsert_rows key dflt ps t !! i = Some r.
Proof.
  unfold upsert_rows. intros Hi Hall. revert t Hi.
  induction Hall as [|p ps Hp _ IH]; intros t Hi; simpl; [done|].
  apply IH. by apply upsert_row_other.
Qed.

(** The row a statement overwrites: the first row with the key of a payload
    row that no later payload row shares its key with ends up carrying every
    column of that payload row. *)
Lemma upsert_rows_overwrites key dflt ps t i r j p v :
  t !! i = Some r ->
  r !! key = Some v ->
  (forall i' r', (i' < i)%nat -> t !! i' = Some r' -> r' !! key <> Some v) ->
  ps !! j = Some p ->
  p !! key = Some v ->
  (forall j' p', (j < j')%nat -> ps !! j' = Some p' -> p' !! key <> Some v) ->
  exists r', upsert_rows key dflt ps t !! i = Some r' /\ p ⊆ r'.
Proof.
  intros Hi Hr Hfirst Hj Hp Hlater.
  rewrite <- (take_drop_middle ps j p Hj).
  unfold upsert_rows. rewrite foldl_app. simpl.
  set (t1 := foldl (fun acc q => upsert_row key dflt q acc) t (take j ps)).
  destruct (upsert_rows_key key dflt (take j ps) t i r Hi) as (r1 & Hr1 & Hk1).
  change (t1 !! i = Some r1) in Hr1.
  assert (Hfirst1 : forall i' r', (i' < i)%nat -> t1 !! i' = Some r' ->
                                  r' !! key <> p !! key).
  { intros i' r' Hlt Hr'.
    destruct (lookup_lt_is_Some_2 t i') as [r0 Hr0].
    { apply lookup_lt_Some in Hi. lia. }
    destruct (upsert_rows_key key dflt (take j ps) t i' r0 Hr0) as (r0' & Hr0' & Hk0).
    change (t1 !! i' = Some r0') in Hr0'. rewrite Hr' in Hr0'. injection Hr0' as <-.
    rewrite Hk0, Hp. by apply (Hfirst i' r0). }
  assert (Hstep : upsert_row key dflt p t1 !! i = Some (p ∪ r1)).
  { apply upsert_row_first; [done | congruence | done]. }
  exists (p ∪ r1). split; [|apply map_union_subseteq_l].
  apply (upsert_rows_other key dflt (drop (S j) ps) _ i (p ∪ r1) Hstep).
  apply Forall_lookup_2. intros k q Hq. rewrite lookup_drop in Hq.
  rewrite (lookup_union_Some_l p r1 key v Hp). intros Heq.
  by apply (Hlater (S j + k)%nat q ltac:(lia) Hq).
Qed.

Lemma sync_overwrites_rows
    (env : App.SyncEnv) (st : App.State) (t : Table)
    (wooProducts : list SyncedProduct) (i j : nat) (r : Row)
    (product : SyncedProduct) :
  App.hasSettings st = Some true ->
  WooCommerce.syncProducts (App.world env) = Js.ok wooProducts ->
  rejects (App.backend env) t (App.upsert_payload (App.clock env) wooProducts) = None ->
  t !! i = Some r ->
  r !! "woo_id" = Some (VInt (woo_id product)) ->
  (forall i' r', (i' < i)%nat -> t !! i' = Some r' ->
                 r' !! "woo_id" <> Some (VInt (woo_id product))) ->
  wooProducts !! j = Some product ->
  (forall j' other, (j < j')%nat -> wooProducts !! j' = Some other ->
                    woo_id other <> woo_id product) ->
  exists r',
    (App.handleSync env st t).1.2 !! i = Some r'
    /\ <["updated_at" := VStr (App.clock env j)]> (App.spread product) ⊆ r'
    /\ r' !! "catalog_price" = r !! "catalog_price".
Proof.
  intros Hset Hsync Haccept Hi Hkey Hfirst Hj Hlater.
  assert (Hrun : (App.handleSync env st t).1.2
                 = upsert_rows "woo_id" (defaults (App.backend env))
                     (App.upsert_payload (App.clock env) wooProducts) t).
  { unfold App.handleSync. rewrite Hset, Hsync. unfold Js.ok. cbv beta iota.
    unfold upsert. rewrite Haccept. reflexivity. }
  rewrite Hrun.
  set (p := <["updated_at" := VStr (App.clock env j)]> (App.spread product)).
  assert (Hpj : App.upsert_payload (App.clock env) wooProducts !! j = Some p).
  { unfold App.upsert_payload. rewrite list_lookup_imap, Hj. reflexivity. }
  destruct (upsert_rows_overwrites "woo_id" (defaults (App.backend env))
              (App.upsert_payload (App.clock env) wooProducts) t i r j p
              (VInt (woo_id product)) Hi Hkey Hfirst Hpj eq_refl)
    as (r' & Hr' & Hsub).
  { intros j' p' Hlt Hp'.
    destruct (upsert_payload_key _ _ _ _ Hp') as (other & Hother & Hk).
    rewrite Hk. intros [= Heq]. by apply (Hlater j' other Hlt Hother). }
  exists r'. split; [exact Hr'|]. split; [exact Hsub|].
  destruct (upsert_rows_frame App.payload_columns "woo_id"
              (defaults (App.backend env))
              (App.upsert_payload (App.clock env) wooProducts)
              (upsert_payload_within _ _) t i r Hi) as (r'' & Hr'' & Hagree).
  rewrite Hr' in Hr''. injection Hr'' as <-.
  apply Hagree, catalog_price_not_written.
Qed.

End UpsertOverwrite.

(** X20: a successful synchronisation overwrites the stored row of every
    listed product with what the remote listing says: for the first row with
    the [woo_id] of a listed product (listed once), the name, price,
    description, image, category, active flag and [updated_at] after the run
    are those of the listing, whatever they were before, while its
    [catalog_price] is what it was. *)
Theorem sync_overwrites_store_fields
    (env : App.SyncEnv) (st : App.State) (t : CatalogStore.Table)
    (wooProducts : list SyncedProduct) (i j : nat) (r : Supabase.Row)
    (product : SyncedProduct) :
  App.hasSettings st = Some true ->
  WooCommerce.syncProducts (App.world env) = Js.ok wooProducts ->
  CatalogStore.rejects (App.backend env) t
    (App.upsert_payload (App.clock env) wooProducts) = None ->
  t !! i = Some r ->
  r !! "woo_id" = Some (Supabase.VInt (woo_id product)) ->
  (forall i' r', (i' < i)%nat -> t !! i' = Some r' ->
                 r' !! "woo_id" <> Some (Supabase.VInt (woo_id product))) ->
  wooProducts !! j = Some product ->
  (forall j' other, (j < j')%nat -> wooProducts !! j' = Some other ->
                    woo_id other <> woo_id product) ->
  exists r',
    (App.handleSync env st t).1.2 !! i = Some r'
    /\ r' !! "name" = Some (Supabase.VStr (name product))
    /\ r' !! "price" = Some (Supabase.of_number (price product))
    /\ r' !! "description" = Some (Supabase.VStr (description product))
    /\ r' !! "image_url" = Some (Supabase.of_nullable (image_url product))
    /\ r' !! "category" = Some (Supabase.of_nullable (category product))
    /\ r' !! "is_active" = Some (Supabase.VBool (is_active product))
    /\ r' !! "updated_at" = Some (Supabase.VStr (App.clock env j))
    /\ r' !! "catalog_price" = r !! "catalog_price".
Proof.
  intros Hset Hsync Haccept Hi Hkey Hfirst Hj Hlater.
  destruct (sync_overwrites_rows env st t wooProducts i j r product
              Hset Hsync Haccept Hi Hkey Hfirst Hj Hlater) as (r' & Hr' & Hsub & Hcat).
  exists r'. split; [exact Hr'|].
  assert (Hcol : forall c v,
            <["updated_at" := Supabase.VStr (App.clock env j)]> (App.spread product) !! c
            = Some v -> r' !! c = Some v).
  { intros c v Hc. by apply (lookup_weaken _ r' c v Hc). }
  repeat (split; [by apply Hcol|]).
  exact Hcat.
Qed.

Lemma sync_overwrites_store_fields_witness :
  exists r',
    (App.handleSync (Sample.sync_env (Sample.listing [Sample.remote "15.50"]))
       (Sample.page ∅ []) [Sample.stored_row]).1.2 !! 0%nat = Some r'
    /\ r' !! "price" = Some (Supabase.VNum (Js.of_decimal false 155 (-1)))
    /\ r' !! "catalog_price" = Some (Supabase.VNum (Js.of_decimal false 12 0)).
Proof.
  destruct (sync_overwrites_store_fields
              (Sample.sync_env (Sample.listing [Sample.remote "15.50"]))
              (Sample.page ∅ []) [Sample.stored_row]
              [WooCommerce.normalize (Sample.remote "15.50")] 0 0
              Sample.stored_row (WooCommerce.normalize (Sample.remote "15.50"))
              eq_refl eq_refl eq_refl eq_refl eq_refl)
    as (r' & Hr' & _ & Hprice & _ & _ & _ & _ & _ & Hcat).
  - intros i' r0 Hlt. lia.
  - reflexivity.
  - intros j' other Hlt Hj'. destruct j' as [|j']; [lia | discriminate Hj'].
  - exists r'. split; [exact Hr'|]. split; [exact Hprice | exact Hcat].
Defined.

(** X21: on the earlier page, where the price field edits the [price] column
    itself, an edit does not survive: after the next successful
    synchronisation that lists the product, the stored price is the remote
    one, whatever was typed. *)
Theorem legacy_price_edit_is_overwritten
    (env : App.SyncEnv) (st : App.State) (t : CatalogStore.Table)
    (products : list Legacy.Product) (productId : string) (newPrice : Js.number)
    (wooProducts : list SyncedProduct) (i j : nat) (r : Supabase.Row)
    (product : SyncedProduct) :
  let edited := (Legacy.handlePriceUpdate None productId newPrice products t).2 in
  App.hasSettings st = Some true ->
  WooCommerce.syncProducts (App.world env) = Js.ok wooProducts ->
  CatalogStore.rejects (App.backend env) edited
    (App.upsert_payload (App.clock env) wooProducts) = None ->
  t !! i = Some r ->
  r !! "woo_id" = Some (Supabase.VInt (woo_id product)) ->
  (forall i' r', (i' < i)%nat -> t !! i' = Some r' ->
                 r' !! "woo_id" <> Some (Supabase.VInt (woo_id product))) ->
  wooProducts !! j = Some product ->
  (forall j' other, (j < j')%nat -> wooProducts !! j' = Some other ->
                    woo_id other <> woo_id product) ->
  (r !! "id" = Some (Supabase.VStr productId) ->
   exists r0, edited !! i = Some r0
              /\ r0 !! "price" = Some (Supabase.of_number newPrice))
  /\ exists r',
       (App.handleSync env st edited).1.2 !! i = Some r'
       /\ r' !! "price" = Some (Supabase.of_number (price product)).
Proof.
  cbv zeta. unfold Legacy.handlePriceUpdate. simpl.
  intros Hset Hsync Haccept Hi Hkey Hfirst Hj Hlater.
  set (edit := fun r0 : Supabase.Row =>
                 if decide (r0 !! "id" = Some (Supabase.VStr productId))
                 then <["price" := Supabase.of_number newPrice]> r0 else r0).
  assert (Hedit : forall k r0, t !! k = Some r0 ->
            CatalogStore.update_eq_id "price" (Supabase.of_number newPrice) productId t !! k
            = Some (edit r0)).
  { intros k r0 Hk. unfold CatalogStore.update_eq_id.
    by rewrite list_lookup_fmap, Hk. }
  assert (Hwoo : forall r0, edit r0 !! "woo_id" = r0 !! "woo_id").
  { intros r0. unfold edit. destruct (decide _); [|done].
    by rewrite lookup_insert_ne. }
  split.
  - intros Hid. exists (edit r). split; [by apply Hedit|].
    unfold edit. rewrite decide_True by done. apply lookup_insert_eq.
  - destruct (sync_overwrites_rows env st
                (CatalogStore.update_eq_id "price" (Supabase.of_number newPrice) productId t)
                wooProducts i j (edit r) product Hset Hsync Haccept)
      as (r' & Hr' & Hsub); try done.
    + by apply Hedit.
    + by rewrite Hwoo.
    + intros i' r0' Hlt Hr0'.
      destruct (lookup_lt_is_Some_2 t i') as [r0 Hr0].
      { apply lookup_lt_Some in Hi. lia. }
      rewrite (Hedit i' r0 Hr0) in Hr0'. injection Hr0' as <-.
      rewrite Hwoo. by apply (Hfirst i' r0).
    + destruct Hsub as [Hsub _]. exists r'. split; [exact Hr'|].
      eapply lookup_weaken; [|exact Hsub]. reflexivity.
Qed.

Lemma legacy_price_edit_is_overwritten_witness :
  (exists r0,
     (Legacy.handlePriceUpdate None "p1" (Js.of_decimal false 99 0)
        [Sample.legacy_product] [Sample.stored_row]).2 !! 0%nat = Some r0
     /\ r0 !! "price" = Some (Supabase.VNum (Js.of_decimal false 99 0)))
  /\ exists r',
       (App.handleSync (Sample.sync_env (Sample.listing [Sample.remote "15.50"]))
          (Sample.page ∅ [])
          (Legacy.handlePriceUpdate None "p1" (Js.of_decimal false 99 0)
             [Sample.legacy_product] [Sample.stored_row]).2).1.2 !! 0%nat = Some r'
       /\ r' !! "price" = Some (Supabase.VNum (Js.of_decimal false 155 (-1))).
Proof.
  destruct (legacy_price_edit_is_overwritten
              (Sample.sync_env (Sample.listing [Sample.remote "15.50"]))
              (Sample.page ∅ []) [Sample.stored_row] [Sample.legacy_product]
              "p1" (Js.of_decimal false 99 0)
              [WooCommerce.normalize (Sample.remote "15.50")] 0 0
              Sample.stored_row (WooCommerce.normalize (Sample.remote "15.50"))
              eq_refl eq_refl eq_refl eq_refl eq_refl) as [Hedit Hsync].
  - intros i' r0 Hlt. lia.
  - reflexivity.
  - intros j' other Hlt Hj'. destruct j' as [|j']; [lia | discriminate Hj'].
  - split; [apply Hedit; reflexivity | exact Hsync].
Defined.

(** ** Prices from the store to the PDF *)

Section PriceTexts.
Import Js.

Lemma all_print_as_written_sound count from n :
  all_print_as_written count from = true ->
  (from <= n < from + N.of_nat count)%N ->
  prints_as_written n = true.
Proof.
  revert from. induction count as [|count IH]; intros from Hall Hn; [lia|].
  simpl in Hall. destruct (prints_as_written from) eqn:Hfrom; [|discriminate].
  destruct (N.eq_dec n from) as [->|Hne]; [done|].
  apply (IH (from + 1)%N Hall). lia.
Qed.

Lemma prices_below_100_checked :
  all_print_as_written (N.to_nat 10000) 0 = true.
Proof. vm_compute. reflexivity. Qed.

Lemma toFixed_small large large' f x :
  match x with
  | S754_finite _ m e => ge_1e21 m e = false
  | _ => True
  end ->
  toFixed large f x = toFixed large' f x.
Proof. destruct x as [| | |s m e]; try done. simpl. by intros ->. Qed.

Lemma price_text_nonempty n : price_text n <> "".
Proof.
  unfold price_text. pose proof (length_digits_pos (n / 100)) as H.
  destruct (digits (n / 100)); [simpl in H; lia | discriminate].
Qed.

End PriceTexts.

(** X22: a store price below 100 written with two decimals ("0.00" up to
    "99.99") comes out of the pipeline as it went in: normalised by
    [syncProducts] and printed by the renderer, the price cell of the PDF is
    "R$ " followed by the very text the store sent. *)
Theorem two_decimal_price_prints_as_written
    (host : Pdf.Host) (record : WooCommerceProduct) (n : N)
    (name : string) (category : option string) :
  (n < 10000)%N ->
  wc_price record = price_text n ->
  Pdf.table_row host
    {| Pdf.name := name;
       Pdf.price := price (WooCommerce.normalize record);
       Pdf.category := category |} !! 2%nat
  = Some ("R$ " ++ wc_price record).
Proof.
  intros Hn Hprice.
  pose proof (all_print_as_written_sound _ _ n prices_below_100_checked
                ltac:(rewrite N2Nat.id; lia)) as Hcheck.
  unfold prints_as_written in Hcheck. apply andb_true_iff in Hcheck as [Hsmall Heq].
  apply String.eqb_eq in Heq.
  unfold Pdf.table_row, WooCommerce.normalize. simpl.
  rewrite Hprice.
  assert (Hor : Js.str_or (price_text n) "0" = price_text n).
  { pose proof (price_text_nonempty n). by destruct (price_text n). }
  rewrite Hor. f_equal. f_equal.
  rewrite <- Heq at 2.
  apply toFixed_small.
  destruct (Js.parseFloat (price_text n)) as [| | |s m e]; try done.
  by apply negb_true_iff in Hsmall.
Qed.

Lemma two_decimal_price_prints_as_written_witness :
  Pdf.table_row Sample.a4
    {| Pdf.name := "Widget";
       Pdf.price := price (WooCommerce.normalize (Sample.remote "19.90"));
       Pdf.category := None |} !! 2%nat
  = Some "R$ 19.90".
Proof.
  apply (two_decimal_price_prints_as_written Sample.a4 (Sample.remote "19.90") 1990
           "Widget" None).
  - reflexivity.
  - reflexivity.
Defined.
